(** * MultiQC scatter plot builder: a shallow embedding of
      [multiqc/plots/scatter.py] and the properties of its specification.

    The Python objects the builder handles are JSON-like: [None], booleans,
    integers, floats, strings, lists and dicts with string keys.  Lists and
    dicts are mutable and shared by reference, so they live in a store and
    values point to them.  Floats are IEEE 754 binary64 numbers, with their
    zeros, infinities and NaN and with round-to-nearest-even arithmetic. *)

From Stdlib Require Import ZArith QArith Floats.SpecFloat Strings.String Strings.Ascii.
From stdpp Require Import base list strings pretty.

Open Scope string_scope.
Open Scope list_scope.
Open Scope Z_scope.

(** ** Values, objects, store *)

(** Store locations. *)
Abbreviation loc := nat.

Inductive value : Type :=
| VNone
| VBool (b : bool)
| VInt (z : Z)
| VFloat (f : spec_float)
| VStr (s : string)
| VRef (l : loc).
Arguments VRef l%_nat.

(** A dict keeps its keys in insertion order, as Python's does. *)
Definition dict := list (string * value).

Inductive object : Type :=
| OList (vs : list value)
| ODict (kvs : dict).

Inductive exn : Type :=
| KeyError
| IndexError
| TypeError
| ValueError
| AttributeError
| OverflowError
| BaseExn (tag : string)     (* raised by foreign code, not an [Exception] *)
| OtherExn (tag : string).   (* raised by foreign code, an [Exception] *)

Definition is_Exception (e : exn) : bool :=
  match e with BaseExn _ => false | _ => true end.

Inductive result (A : Type) : Type :=
| Ok (a : A)
| Raise (e : exn).
Arguments Ok {A} a.
Arguments Raise {A} e.

(** The mutable state a build can touch: the object store and the globals of
    the [report] module. *)
Record world : Type := World {
  heap : list object;
  plot_data : list (string * value);   (* report.plot_data *)
  num_hc_plots : Z;                    (* report.num_hc_plots *)
  html_ids : list string               (* identifiers handed out so far *)
}.

Definition set_heap (h : list object) (w : world) : world :=
  World h (plot_data w) (num_hc_plots w) (html_ids w).

(** ** Statements: state and exceptions *)

Definition M (A : Type) : Type := world -> result A * world.

Definition ret {A} (a : A) : M A := fun w => (Ok a, w).
Definition raise {A} (e : exn) : M A := fun w => (Raise e, w).
Definition bind {A B} (m : M A) (k : A -> M B) : M B :=
  fun w => match m w with
           | (Ok a, w') => k a w'
           | (Raise e, w') => (Raise e, w')
           end.

Notation "x <- m ;; k" := (bind m (fun x => k))
  (at level 100, m at next level, right associativity).
Notation "m ;;; k" := (bind m (fun _ => k))
  (at level 100, right associativity).

Definition lift {A} (r : result A) : M A := fun w => (r, w).

(** [try: ... except Exception: pass] *)
Definition try_except_Exception (m : M unit) : M unit :=
  fun w => match m w with
           | (Ok u, w') => (Ok u, w')
           | (Raise e, w') => if is_Exception e then (Ok tt, w') else (Raise e, w')
           end.

(** Statement-level [for x in xs], over the items an iterator yields. *)
Fixpoint for_each {A} (xs : list A) (body : A -> M unit) : M unit :=
  match xs with
  | [] => ret tt
  | x :: xs' => body x ;;; for_each xs' body
  end.

(** ** Dict contents *)

Fixpoint dict_get (k : string) (d : dict) : option value :=
  match d with
  | [] => None
  | (k', v) :: d' => if String.eqb k k' then Some v else dict_get k d'
  end.

(** Lookup in a table keyed by strings (the same scan, any payload). *)
Fixpoint table_get {A} (k : string) (t : list (string * A)) : option A :=
  match t with
  | [] => None
  | (k', a) :: t' => if String.eqb k k' then Some a else table_get k t'
  end.

Definition dict_mem (k : string) (d : dict) : bool :=
  match dict_get k d with Some _ => true | None => false end.

(** [d[k] = v]: an existing key keeps its place, a new key goes last. *)
Fixpoint dict_set (k : string) (v : value) (d : dict) : dict :=
  match d with
  | [] => [(k, v)]
  | (k', v') :: d' =>
      if String.eqb k k' then (k, v) :: d' else (k', v') :: dict_set k v d'
  end.

(** [d.update(d2)] *)
Definition dict_update (d d2 : dict) : dict :=
  fold_left (fun acc kv => dict_set (fst kv) (snd kv) acc) d2 d.

(** ** Store access *)

Definition alloc (o : object) : M value :=
  fun w => (Ok (VRef (length (heap w))), set_heap (heap w ++ [o]) w).

Definition store (l : loc) (o : object) : M unit :=
  fun w => (Ok tt, set_heap (<[l := o]> (heap w)) w).

(** The object a value refers to, if it is a list or a dict of the store. *)
Definition obj_of (h : list object) (v : value) : option object :=
  match v with VRef l => h !! l | _ => None end.

Definition isinstance_dict (v : value) : M bool :=
  fun w => (Ok match obj_of (heap w) v with Some (ODict _) => true | _ => false end, w).

Definition isinstance_list (v : value) : M bool :=
  fun w => (Ok match obj_of (heap w) v with Some (OList _) => true | _ => false end, w).

(** Reading the store never changes it: such operations are functions of the
    store, run as statements through [rd]. *)
Definition rd {A} (f : list object -> result A) : M A := fun w => (f (heap w), w).

Definition rbind {A B} (r : result A) (k : A -> result B) : result B :=
  match r with Ok a => k a | Raise e => Raise e end.

Notation "x <~ r ;; k" := (rbind r (fun x => k))
  (at level 100, r at next level, right associativity).

(** The contents of a dict object; any other value has no dict protocol. *)
Definition as_dict (v : value) (h : list object) : result dict :=
  match obj_of h v with
  | Some (ODict kvs) => Ok kvs
  | _ => Raise TypeError
  end.

(** An integer usable as an index ([bool] is a subclass of [int]). *)
Definition index_of (i : value) : option Z :=
  match i with
  | VInt z => Some z
  | VBool b => Some (if b then 1 else 0)
  | _ => None
  end.

(** [xs[z]] with Python's negative indices. *)
Definition seq_index {A} (xs : list A) (z : Z) : result A :=
  let n := Z.of_nat (length xs) in
  let z' := if z <? 0 then z + n else z in
  if z' <? 0 then Raise IndexError
  else match xs !! Z.to_nat z' with
       | Some x => Ok x
       | None => Raise IndexError
       end.

Definition chars (s : string) : list value :=
  map (fun c => VStr (String c EmptyString)) (list_ascii_of_string s).

(** [c[i]] *)
Definition py_getitem (c i : value) (h : list object) : result value :=
  match c with
  | VRef l =>
      match h !! l with
      | Some (OList vs) =>
          match index_of i with
          | Some z => seq_index vs z
          | None => Raise TypeError
          end
      | Some (ODict kvs) =>
          match i with
          | VStr k => match dict_get k kvs with
                      | Some v => Ok v
                      | None => Raise KeyError
                      end
          | VRef _ => Raise TypeError        (* unhashable key *)
          | _ => Raise KeyError              (* keys are strings *)
          end
      | None => Raise TypeError
      end
  | VStr s =>
      match index_of i with
      | Some z => seq_index (chars s) z
      | None => Raise TypeError
      end
  | _ => Raise TypeError
  end.

(** The items [for x in v] visits: the elements of a list, the keys of a
    dict, the characters of a string. *)
Definition py_iter (v : value) (h : list object) : result (list value) :=
  match v with
  | VRef l =>
      match h !! l with
      | Some (OList vs) => Ok vs
      | Some (ODict kvs) => Ok (map (fun kv => VStr (fst kv)) kvs)
      | None => Raise TypeError
      end
  | VStr s => Ok (chars s)
  | _ => Raise TypeError
  end.

(** [len(v)] *)
Definition py_len (v : value) (h : list object) : result nat :=
  match v with
  | VRef l =>
      match h !! l with
      | Some (OList vs) => Ok (length vs)
      | Some (ODict kvs) => Ok (length kvs)
      | None => Raise TypeError
      end
  | VStr s => Ok (String.length s)
  | _ => Raise TypeError
  end.

(** [c[i] = v].  On a dict the builder only ever assigns string keys. *)
Definition py_setitem (c i v : value) : M unit :=
  fun w =>
    match c with
    | VRef l =>
        match heap w !! l with
        | Some (OList vs) =>
            match index_of i with
            | Some z =>
                match seq_index vs z with
                | Ok _ =>
                    let n := Z.to_nat (if z <? 0 then z + Z.of_nat (length vs) else z) in
                    store l (OList (<[n := v]> vs)) w
                | Raise e => (Raise e, w)
                end
            | None => (Raise TypeError, w)
            end
        | Some (ODict kvs) =>
            match i with
            | VStr k => store l (ODict (dict_set k v kvs)) w
            | _ => (Raise TypeError, w)
            end
        | None => (Raise TypeError, w)
        end
    | _ => (Raise TypeError, w)
    end.

(** [c.append(v)] *)
Definition list_append (c v : value) : M unit :=
  fun w =>
    match c with
    | VRef l =>
        match heap w !! l with
        | Some (OList vs) => store l (OList (vs ++ [v])) w
        | _ => (Raise AttributeError, w)
        end
    | _ => (Raise AttributeError, w)
    end.

(** [c.reverse()] *)
Definition list_reverse (c : value) : M unit :=
  fun w =>
    match c with
    | VRef l =>
        match heap w !! l with
        | Some (OList vs) => store l (OList (rev vs)) w
        | _ => (Raise AttributeError, w)
        end
    | _ => (Raise AttributeError, w)
    end.

(** ** Numbers

    Python compares and multiplies integers and doubles together.  An [int]
    is exact and unbounded; a [float] is a binary64 number, held as the
    Standard Library's [spec_float] at precision 53 and maximal exponent
    1024. *)

Definition prec64 : Z := 53.
Definition emax64 : Z := 1024.

(** The double nearest to the integer [z], ties to even: [float(z)].  Python
    raises [OverflowError] where the nearest double would be an infinity. *)
Definition float_of_int (z : Z) : result spec_float :=
  match binary_normalize prec64 emax64 z 0 false with
  | S754_infinity _ => Raise OverflowError
  | f => Ok f
  end.

(** IEEE product of two doubles; it overflows to an infinity silently. *)
Definition float_mul (x y : spec_float) : spec_float := SFmul prec64 emax64 x y.

(** The exact value of a number: not a number, an infinity, or a rational. *)
Inductive xnum : Type :=
| XNaN
| XInf (neg : bool)
| XFin (q : Q).

(** [m * 2 ^ e] *)
Definition dyadic (m e : Z) : Q :=
  match e with
  | Z0 => inject_Z m
  | Zpos p => inject_Z (m * 2 ^ Zpos p)
  | Zneg p => Qmake m (2 ^ p)
  end.

Definition xnum_of_float (f : spec_float) : xnum :=
  match f with
  | S754_nan => XNaN
  | S754_infinity s => XInf s
  | S754_zero _ => XFin 0
  | S754_finite s m e => XFin (dyadic (if s then Zneg m else Zpos m) e)
  end.

Definition Qgt_b (a b : Q) : bool := negb (Qle_bool a b).

(** [a > b] and [a == b] on exact values, as Python and IEEE 754 decide
    them: every comparison with a NaN is false. *)
Definition xgt (a b : xnum) : bool :=
  match a, b with
  | XNaN, _ | _, XNaN => false
  | XInf true, _ => false
  | _, XInf false => false
  | XInf false, _ => true
  | _, XInf true => true
  | XFin x, XFin y => Qgt_b x y
  end.

Definition xeq (a b : xnum) : bool :=
  match a, b with
  | XInf s, XInf s' => Bool.eqb s s'
  | XFin x, XFin y => Qeq_bool x y
  | _, _ => false
  end.

(** [x > m] and [x < m] on doubles. *)
Definition float_gt (x m : spec_float) : bool :=
  xgt (xnum_of_float x) (xnum_of_float m).
Definition float_lt (x m : spec_float) : bool :=
  xgt (xnum_of_float m) (xnum_of_float x).

(** Truth value of an object. *)
Definition py_truthy (v : value) (h : list object) : bool :=
  match v with
  | VNone => false
  | VBool b => b
  | VInt z => negb (z =? 0)
  | VFloat f => match f with S754_zero _ => false | _ => true end
  | VStr s => negb (String.eqb s "")
  | VRef l =>
      match h !! l with
      | Some (OList vs) => negb (Nat.eqb (length vs) 0)
      | Some (ODict kvs) => negb (Nat.eqb (length kvs) 0)
      | None => true
      end
  end.

(** The number a numeric object denotes. *)
Definition num_of (v : value) : option xnum :=
  match v with
  | VInt z => Some (XFin (inject_Z z))
  | VFloat f => Some (xnum_of_float f)
  | VBool b => Some (XFin (if b then 1%Q else 0%Q))
  | _ => None
  end.

(** [item > maxitem], as [max] asks it.  The right operand is always a number
    where the builder compares, so only numbers compare without a
    [TypeError]. *)
Definition py_gt (a b : value) : result bool :=
  match num_of a, num_of b with
  | Some x, Some y => Ok (xgt x y)
  | _, _ => Raise TypeError
  end.

(** [max(m, x, y)]: the first of the largest items. *)
Definition py_max3 (m x y : value) : result value :=
  gx <~ py_gt x m ;;
  let m1 := if gx then x else m in
  gy <~ py_gt y m1 ;;
  Ok (if gy then y else m1).

(** [f * v] for a float literal [f]: an [int] operand is converted to a
    double first, which can overflow; the product is rounded. *)
Definition py_fmul (f : spec_float) (v : value) : result value :=
  match v with
  | VInt z => x <~ float_of_int z ;; Ok (VFloat (float_mul f x))
  | VBool b => x <~ float_of_int (if b then 1 else 0) ;; Ok (VFloat (float_mul f x))
  | VFloat x => Ok (VFloat (float_mul f x))
  | _ => Raise TypeError
  end.

(** The literal [1.02]: the double [0x1.051eb851eb852p+0]. *)
Definition f_1_02 : spec_float := S754_finite false 4593671619917906 (-52).

(** [v == n] for an integer [n]. *)
Definition py_eq_int (v : value) (n : Z) : bool :=
  match num_of v with
  | Some x => xeq x (XFin (inject_Z n))
  | None => false
  end.

(** ** The environment of a build *)

(** What the template module binds to the name [scatter]. *)
Inductive scatter_attr : Type :=
| NoScatter                                            (* not in [mod.__dict__] *)
| ScatterNotCallable
| ScatterHook (f : value -> value -> M value).

(** Code and settings that live outside the module: the [config] module, the
    loaded template, [report.save_htmlid], the draw of [random.sample], and
    the parts of Python's [float] and [str] that depend on number
    syntax. *)
Record env : Type := Env {
  custom_plot_config : list (string * dict);      (* config.custom_plot_config *)
  strict : bool;                                  (* config.strict *)
  template_scatter : scatter_attr;
  save_htmlid : value -> list string -> result string * list string;
  random_letters : string;                        (* "".join(random.sample(letters, 10)) *)
  float_of_str : string -> option spec_float;     (* float(s) for a string s *)
  repr_float : spec_float -> string;              (* str(x) for a float x *)
  repr_obj : list object -> loc -> string         (* str(o) for a list or dict o *)
}.

Definition dq : string := String "034"%char EmptyString.
Definition nl : string := String "010"%char EmptyString.

Section Scatter.

Variable E : env.

(** [float(v)] *)
Definition to_float (v : value) : result spec_float :=
  match v with
  | VInt z => float_of_int z
  | VFloat f => Ok f
  | VBool b => float_of_int (if b then 1 else 0)
  | VStr s => match float_of_str E s with
              | Some f => Ok f
              | None => Raise ValueError
              end
  | VNone | VRef _ => Raise TypeError
  end.

(** [str(v)], as string formatting applies it. *)
Definition py_str (h : list object) (v : value) : string :=
  match v with
  | VNone => "None"
  | VBool true => "True"
  | VBool false => "False"
  | VInt z => pretty z
  | VFloat f => repr_float E f
  | VStr s => s
  | VRef l => repr_obj E h l
  end.

(** [key in v] for a dict [v]. *)
Definition py_in_dict (key v : value) (h : list object) : result bool :=
  kvs <~ as_dict v h ;;
  match key with
  | VStr k => Ok (dict_mem k kvs)
  | VRef _ => Raise TypeError              (* unhashable key *)
  | _ => Ok false                           (* keys are strings *)
  end.

(** [if pconfig is None: pconfig = {}] *)
Definition default_pconfig (pconfig : value) : M value :=
  match pconfig with
  | VNone => alloc (ODict [])
  | _ => ret pconfig
  end.

(** *** [plot], lines 35-38: the user's overrides for this plot id *)
Definition apply_custom_plot_config (pconfig : value) : M unit :=
  cfg <- rd (as_dict pconfig) ;;
  match dict_get "id" cfg with
  | None => ret tt
  | Some id =>
      t <- rd (fun h => Ok (py_truthy id h)) ;;
      if t then
        match id with
        | VStr s =>
            match table_get s (custom_plot_config E) with
            | Some overrides =>
                for_each overrides (fun kv => py_setitem pconfig (VStr (fst kv)) (snd kv))
            | None => ret tt
            end
        | VRef _ => raise TypeError         (* unhashable key *)
        | _ => ret tt
        end
      else ret tt
  end.

(** *** [plot], lines 50-54: the configuration in force for one dataset

    [series_config] is a private copy that nothing else refers to, so it is
    kept as the dict's contents. *)
Definition series_config (pconfig : value) (data_index : nat) (h : list object)
  : result dict :=
  cfg <~ as_dict pconfig h ;;
  match dict_get "data_labels" cfg with
  | None => Ok cfg
  | Some data_labels =>
      dl <~ py_getitem data_labels (VInt (Z.of_nat data_index)) h ;;
      match obj_of h dl with
      | Some (ODict overrides) => Ok (dict_update cfg overrides)
      | _ => Ok cfg
      end
  end.

(** *** Lines 59-63 and 64-68: one axis of the range filter.  [true] means
    the point is skipped ([continue]). *)
Definition beyond (cfg : dict) (kmax kmin : string) (c : value) : result bool :=
  match c with
  | VNone => Ok false
  | _ =>
      over <~ match dict_get kmax cfg with
              | Some vmax => x <~ to_float c ;; m <~ to_float vmax ;; Ok (float_gt x m)
              | None => Ok false
              end ;;
      if over : bool then Ok true
      else match dict_get kmin cfg with
           | Some vmin => x <~ to_float c ;; m <~ to_float vmin ;; Ok (float_lt x m)
           | None => Ok false
           end
  end.

Definition skip_point (cfg : dict) (point : value) (h : list object) : result bool :=
  x <~ py_getitem point (VStr "x") h ;;
  bx <~ beyond cfg "xmax" "xmin" x ;;
  if bx : bool then Ok true
  else y <~ py_getitem point (VStr "y") h ;;
       beyond cfg "ymax" "ymin" y.

(** *** Lines 69-72 *)
Definition set_name (s_name point : value) : M unit :=
  fields <- rd (as_dict point) ;;
  match dict_get "name" fields with
  | Some n =>
      label <- rd (fun h => Ok (VStr (py_str h s_name +:+ ": " +:+ py_str h n))) ;;
      py_setitem point (VStr "name") label
  | None => py_setitem point (VStr "name") s_name
  end.

(** *** Lines 74-80 *)
Definition decoration_keys : list string :=
  ["color"; "opacity"; "marker_size"; "marker_line_width"].

Definition decorate (cfg : dict) (s_name point : value) (k : string) : M unit :=
  fields <- rd (as_dict point) ;;
  if dict_mem k fields then ret tt
  else match dict_get k cfg with
       | None => ret tt
       | Some v =>
           isd <- isinstance_dict v ;;
           per_sample <- (if isd : bool then rd (py_in_dict s_name v) else ret false) ;;
           if per_sample : bool then
             x <- rd (py_getitem v s_name) ;;
             py_setitem point (VStr k) x
           else py_setitem point (VStr k) v
       end.

(** *** Lines 58-81: the body of the loop over the points of a sample *)
Definition process_point (cfg : dict) (s_name d point : value) : M unit :=
  skip <- rd (skip_point cfg point) ;;
  if skip : bool then ret tt
  else
    set_name s_name point ;;;
    for_each decoration_keys (decorate cfg s_name point) ;;;
    list_append d point.

(** *** Lines 48-81: the body of the loop over the samples of a dataset *)
Definition process_sample (pconfig : value) (data_index : nat) (ds d s_name : value)
  : M unit :=
  cfg <- rd (series_config pconfig data_index) ;;
  v <- rd (py_getitem ds s_name) ;;
  isl <- isinstance_list v ;;
  (if isl : bool then ret tt
   else wrapped <- alloc (OList [v]) ;; py_setitem ds s_name wrapped) ;;;
  points_ref <- rd (py_getitem ds s_name) ;;
  points <- rd (py_iter points_ref) ;;
  for_each points (process_point cfg s_name d).

(** [for i, x in enumerate(xs)], counting from [i]. *)
Fixpoint for_enum {A} (i : nat) (xs : list A) (body : nat -> A -> M unit) : M unit :=
  match xs with
  | [] => ret tt
  | x :: xs' => body i x ;;; for_enum (S i) xs' body
  end.

(** *** Lines 46-82: the body of the loop over the datasets *)
Definition process_dataset (pconfig plotdata : value) (data_index : nat) (ds : value)
  : M unit :=
  d <- alloc (OList []) ;;
  s_names <- rd (py_iter ds) ;;
  for_each s_names (process_sample pconfig data_index ds d) ;;;
  list_append plotdata d.

(** *** Lines 40-82: from the caller's data to [plotdata] *)
Definition build_plotdata (data pconfig : value) : M value :=
  isl <- isinstance_list data ;;
  datasets <- (if isl : bool then rd (py_iter data) else ret [data]) ;;
  plotdata <- alloc (OList []) ;;
  for_enum 0 datasets (process_dataset pconfig plotdata) ;;;
  ret plotdata.

(** *** Lines 84-95: the square layout *)
Definition max_step (m s : value) (h : list object) : result value :=
  x <~ py_getitem s (VStr "x") h ;;
  y <~ py_getitem s (VStr "y") h ;;
  py_max3 m x y.

Fixpoint fold_max (f : value -> value -> list object -> result value)
    (m : value) (xs : list value) (h : list object) : result value :=
  match xs with
  | [] => Ok m
  | x :: xs' => m' <~ f m x h ;; fold_max f m' xs' h
  end.

Definition max_of_dataset (m d : value) (h : list object) : result value :=
  points <~ py_iter d h ;;
  fold_max max_step m points h.

Definition find_max (plotdata : value) (h : list object) : result value :=
  ds <~ py_iter plotdata h ;;
  fold_max max_of_dataset (VInt 0) ds h.

Definition dict_get_default (k : string) (d : dict) (dflt : value) : value :=
  match dict_get k d with Some v => v | None => dflt end.

Definition square_layout (plotdata pconfig : value) : M unit :=
  cfg <- rd (as_dict pconfig) ;;
  sq <- rd (fun h => Ok (py_truthy (dict_get_default "square" cfg VNone) h)) ;;
  if sq : bool then
    py_setitem pconfig (VStr "endOnTick") (VBool false) ;;;
    cfg <- rd (as_dict pconfig) ;;
    if negb (dict_mem "ymax" cfg) && negb (dict_mem "xmax" cfg) then
      max_val <- rd (find_max plotdata) ;;
      max_val <- lift (py_fmul f_1_02 max_val) ;;
      cfg <- rd (as_dict pconfig) ;;
      py_setitem pconfig (VStr "xmax") (dict_get_default "xmax" cfg max_val) ;;;
      cfg <- rd (as_dict pconfig) ;;
      py_setitem pconfig (VStr "ymax") (dict_get_default "ymax" cfg max_val)
    else ret tt
  else ret tt.

(** Lines 105-107. *)
Definition merge_entries (plotdata : value) (i : nat) (entries : list value) : M unit :=
  for_enum i entries (fun i es =>
    points <- rd (py_iter es) ;;
    for_each points (fun s =>
      dataset <- rd (py_getitem plotdata (VInt (Z.of_nat i))) ;;
      list_append dataset s)).

(** *** Lines 99-107: the annotation series, inside the [try] *)
Definition merge_extra_series (plotdata pconfig : value) : M unit :=
  cfg <- rd (as_dict pconfig) ;;
  let given := dict_get_default "extra_series" cfg VNone in
  t <- rd (fun h => Ok (py_truthy given h)) ;;
  if t : bool then
    isd <- isinstance_dict given ;;
    extra_series <-
      (if isd : bool then
         inner <- alloc (OList [given]) ;; alloc (OList [inner])
       else
         isl <- isinstance_list given ;;
         if isl : bool then
           first <- rd (py_getitem given (VInt 0)) ;;
           isd0 <- isinstance_dict first ;;
           if isd0 : bool then alloc (OList [given]) else ret given
         else ret given) ;;
    entries <- rd (py_iter extra_series) ;;
    merge_entries plotdata 0 entries
  else ret tt.

(** *** Lines 97-109 *)
Definition add_extra_series (plotdata pconfig : value) : M unit :=
  try_except_Exception (merge_extra_series plotdata pconfig).

(** *** [highcharts_scatter_plot]: markup *)

(** [name="val"] *)
Definition attr (name val : string) : string :=
  name +:+ "=" +:+ dq +:+ val +:+ dq.

(** Line 147: every entry of [data_labels] as a dict; a bare label [dl]
    becomes [{"name": dl}].  These dicts are read at once and dropped, so
    their contents stand for them. *)
Definition label_dicts (cfg : dict) (h : list object) : result (list dict) :=
  match dict_get "data_labels" cfg with
  | None => Ok []
  | Some data_labels =>
      dls <~ py_iter data_labels h ;;
      Ok (map (fun dl => match obj_of h dl with
                         | Some (ODict kvs) => kvs
                         | _ => [("name", dl)]
                         end) dls)
  end.

(** [dls[k][key]], or nothing where Python raises. *)
Definition label_field (dls : list dict) (k : nat) (key : string) : option value :=
  match dls !! k with
  | Some dl => dict_get key dl
  | None => None
  end.

(** Lines 164-166: the format string of one switch control, with its
    fields [a], [y], [ym], [xl], [k], [id], [n]. *)
Definition button_markup (a y ym xl k id n : string) : string :=
  "<button " +:+ attr "class" ("btn btn-default btn-sm " +:+ a)
  +:+ " " +:+ attr "data-action" "set_data"
  +:+ " " +:+ y +:+ " " +:+ ym +:+ " " +:+ xl
  +:+ " " +:+ attr "data-newdata" k
  +:+ " " +:+ attr "data-target" id
  +:+ ">" +:+ n +:+ "</button>" +:+ nl.

Definition group_open : string :=
  "<div " +:+ attr "class" "btn-group hc_switch_group" +:+ ">" +:+ nl.
Definition group_close : string := "</div>" +:+ nl +:+ nl.
Definition page_open : string :=
  "<div " +:+ attr "class" "mqc_hcplot_plotgroup" +:+ ">".

(** Lines 146-166: the switch control of dataset [k]. *)
Definition switch_button (pconfig : value) (k : nat) (h : list object) : result string :=
  let active := if Nat.eqb k 0 then "active" else "" in
  cfg <~ as_dict pconfig h ;;
  dls <~ label_dicts cfg h ;;
  let name := match label_field dls k "name" with
              | Some v => v
              | None => VInt (Z.of_nat k + 1)
              end in
  let hint key := if py_eq_int name (Z.of_nat k + 1) then ""
                  else attr key (py_str h name) in
  let ylab := match label_field dls k "ylab" with
              | Some v => attr "data-ylab" (py_str h v)
              | None => hint "data-ylab"
              end in
  let ymax := match label_field dls k "ymax" with
              | Some v => attr "data-ymax" (py_str h v)
              | None => ""
              end in
  let xlab := match label_field dls k "xlab" with
              | Some v => attr "data-xlab" (py_str h v)
              | None => hint "data-xlab"
              end in
  id <~ py_getitem pconfig (VStr "id") h ;;
  Ok (button_markup active ylab ymax xlab (pretty (Z.of_nat k)) (py_str h id)
                     (py_str h name)).

Fixpoint switch_buttons (pconfig : value) (ks : list nat) (h : list object)
  : result string :=
  match ks with
  | [] => Ok ""
  | k :: ks' =>
      b <~ switch_button pconfig k h ;;
      rest <~ switch_buttons pconfig ks' h ;;
      Ok (b +:+ rest)
  end.

(** Lines 143-167 *)
Definition switch_group (plotdata pconfig : value) (h : list object) : result string :=
  n <~ py_len plotdata h ;;
  if (1 <? n)%nat then
    items <~ py_iter plotdata h ;;
    buttons <~ switch_buttons pconfig (seq 0 (length items)) h ;;
    Ok (group_open +:+ buttons +:+ group_close)
  else Ok "".

(** Lines 170-173 *)
Definition plot_container (pconfig : value) (h : list object) : result string :=
  cfg <~ as_dict pconfig h ;;
  id <~ py_getitem pconfig (VStr "id") h ;;
  let height := match dict_get "height" cfg with
                | Some v => " " +:+ attr "style" ("height:" +:+ py_str h v +:+ "px")
                | None => ""
                end in
  Ok ("<div " +:+ attr "class" "hc-plot-wrapper" +:+ height +:+ ">"
      +:+ "<div " +:+ attr "id" (py_str h id) +:+ " "
      +:+ attr "class" "hc-plot not_rendered hc-scatter-plot" +:+ ">"
      +:+ "<small>loading..</small></div></div></div> " +:+ nl).

(** *** [highcharts_scatter_plot]: effects on the [report] module *)

Definition call_save_htmlid (id : value) : M string :=
  fun w =>
    let (r, ids) := save_htmlid E id (html_ids w) in
    (r, World (heap w) (plot_data w) (num_hc_plots w) ids).

Definition incr_num_hc_plots : M unit :=
  fun w => (Ok tt, World (heap w) (plot_data w) (num_hc_plots w + 1) (html_ids w)).

Fixpoint table_set {A} (k : string) (a : A) (t : list (string * A)) : list (string * A) :=
  match t with
  | [] => [(k, a)]
  | (k', a') :: t' =>
      if String.eqb k k' then (k, a) :: t' else (k', a') :: table_set k a t'
  end.

Definition register_plot (id : string) (payload : value) : M unit :=
  fun w => (Ok tt, World (heap w) (table_set id payload (plot_data w))
                         (num_hc_plots w) (html_ids w)).

(** Lines 178-179: [for d in plotdata: d.reverse()].  The iterator looks at
    the list afresh at every step; reversing keeps every length, so [n]
    steps, for [n] the length at entry, exhaust it. *)
Fixpoint reverse_datasets (n i : nat) (plotdata : value) : M unit :=
  match n with
  | O => ret tt
  | S n' =>
      items <- rd (py_iter plotdata) ;;
      match items !! i with
      | None => ret tt
      | Some d => list_reverse d ;;; reverse_datasets n' (S i) plotdata
      end
  end.

Definition highcharts_scatter_plot (plotdata pconfig : value) : M value :=
  pconfig <- default_pconfig pconfig ;;
  (* the plot id *)
  cfg <- rd (as_dict pconfig) ;;
  (match dict_get_default "id" cfg VNone with
   | VNone => py_setitem pconfig (VStr "id") (VStr ("mqc_hcplot_" +:+ random_letters E))
   | _ => ret tt
   end) ;;;
  id0 <- rd (py_getitem pconfig (VStr "id")) ;;
  id <- call_save_htmlid id0 ;;
  py_setitem pconfig (VStr "id") (VStr id) ;;;
  (* the markup *)
  switches <- rd (switch_group plotdata pconfig) ;;
  container <- rd (plot_container pconfig) ;;
  let html := page_open +:+ switches +:+ container in
  incr_num_hc_plots ;;;
  (* z-order *)
  n <- rd (py_len plotdata) ;;
  reverse_datasets n 0 plotdata ;;;
  payload <- alloc (ODict [("plot_type", VStr "scatter");
                           ("datasets", plotdata);
                           ("config", pconfig)]) ;;
  register_plot id payload ;;;
  ret (VStr html).

(** *** Lines 111-121: the template's renderer, or the built-in one *)
Definition render (plotdata pconfig : value) : M value :=
  match template_scatter E with
  | ScatterHook scatter =>
      fun w =>
        match scatter plotdata pconfig w with
        | (Ok v, w') => (Ok v, w')
        | (Raise e, w') =>
            if strict E then (Raise e, w')
            else highcharts_scatter_plot plotdata pconfig w'
        end
  | _ => highcharts_scatter_plot plotdata pconfig
  end.

(** *** [plot] *)

(** Lines 32-82 and 84-109: everything [plot] does before it chooses a
    renderer; it hands over [plotdata] and the configuration dict. *)
Definition prepare (data pconfig : value) : M (value * value) :=
  pconfig <- default_pconfig pconfig ;;
  apply_custom_plot_config pconfig ;;;
  plotdata <- build_plotdata data pconfig ;;
  square_layout plotdata pconfig ;;;
  add_extra_series plotdata pconfig ;;;
  ret (plotdata, pconfig).

Definition plot (data pconfig : value) : M value :=
  pp <- prepare data pconfig ;;
  render (fst pp) (snd pp).

End Scatter.

(** ** Sample environment and stores for the closed examples *)

Definition demo_save_htmlid (v : value) (ids : list string)
  : result string * list string :=
  match v with
  | VStr s => (Ok s, ids ++ [s])
  | _ => (Raise TypeError, ids)
  end.

Definition demo_env (st : bool) (hook : scatter_attr) : env :=
  Env [] st hook demo_save_htmlid "abcdefghij"
      (fun _ => None) (fun _ => "<float>") (fun _ _ => "<object>").

Definition fresh_world (h : list object) : world := World h [] 0 [].

(** A renderer that always fails. *)
Definition failing_hook (_ _ : value) : M value := raise (OtherExn "template").

(** Two datasets of one point each, and a one-entry [data_labels]:
    [plot([{"s1": {"x": 5, "y": 5}}, {"s2": {"x": 6, "y": 7}}],
          {"data_labels": ["A"]})] *)
Definition short_labels_store : list object :=
  [ ODict [("x", VInt 5); ("y", VInt 5)];
    ODict [("s1", VRef 0)];
    ODict [("x", VInt 6); ("y", VInt 7)];
    ODict [("s2", VRef 2)];
    OList [VRef 1; VRef 3];
    OList [VStr "A"];
    ODict [("data_labels", VRef 5)] ].

(** The same call with a label for each dataset. *)
Definition full_labels_store : list object :=
  <[5%nat := OList [VStr "A"; VStr "B"]]> short_labels_store.

(** ** Running statements *)

Lemma bind_Ok {A B} (m : M A) (k : A -> M B) w b w' :
  bind m k w = (Ok b, w') ->
  exists a w1, m w = (Ok a, w1) /\ k a w1 = (Ok b, w').
Proof.
  unfold bind. destruct (m w) as [[a | e] w1]; intros H.
  - exists a, w1. auto.
  - discriminate.
Qed.

Lemma bind_run {A B} (m : M A) (k : A -> M B) w a w1 :
  m w = (Ok a, w1) -> bind m k w = k a w1.
Proof. unfold bind. intros ->. reflexivity. Qed.

Lemma bind_raise {A B} (m : M A) (k : A -> M B) w e w1 :
  m w = (Raise e, w1) -> bind m k w = (Raise e, w1).
Proof. unfold bind. intros ->. reflexivity. Qed.

Lemma rd_Ok {A} (f : list object -> result A) w a w' :
  rd f w = (Ok a, w') -> w' = w /\ f (heap w) = Ok a.
Proof. unfold rd. intros H. inversion H. auto. Qed.

Lemma rbind_Ok {A B} (r : result A) (k : A -> result B) b :
  rbind r k = Ok b -> exists a, r = Ok a /\ k a = Ok b.
Proof. destruct r; simpl; intros H; [eauto | discriminate]. Qed.

(** ** The renderer hook (lines 111-121) *)

(** C8. If the template provides a callable [scatter] and that call raises,
    then with [config.strict] off [plot] returns what the built-in
    [highcharts_scatter_plot] returns (run from the state the failed call
    left), and with [config.strict] on the exception reaches the caller of
    [plot] and the built-in generator is not run: the state is the one the
    failed call left. *)
Theorem renderer_failure_fallback_or_propagate
    (E : env) (scatter : value -> value -> M value)
    (data pconfig plotdata pc : value) (e : exn) (w w1 w2 : world) :
  template_scatter E = ScatterHook scatter ->
  prepare E data pconfig w = (Ok (plotdata, pc), w1) ->
  scatter plotdata pc w1 = (Raise e, w2) ->
  (strict E = false ->
     plot E data pconfig w = highcharts_scatter_plot E plotdata pc w2) /\
  (strict E = true ->
     plot E data pconfig w = (Raise e, w2)).
Proof.
  intros Hhook Hprep Hfail.
  unfold plot. rewrite (bind_run _ _ _ _ _ Hprep). simpl.
  unfold render. rewrite Hhook, Hfail.
  split; intros ->; reflexivity.
Qed.

Lemma renderer_failure_witness :
  plot (demo_env false (ScatterHook failing_hook)) (VRef 4) (VRef 6)
       (fresh_world full_labels_store)
  = highcharts_scatter_plot (demo_env false (ScatterHook failing_hook)) (VRef 7) (VRef 6)
      (snd (prepare (demo_env false (ScatterHook failing_hook)) (VRef 4) (VRef 6)
              (fresh_world full_labels_store))).
Proof.
  refine (proj1 (renderer_failure_fallback_or_propagate
            (demo_env false (ScatterHook failing_hook)) failing_hook
            (VRef 4) (VRef 6) (VRef 7) (VRef 6) (OtherExn "template")
            _ _ _ _ _ _) _); reflexivity.
Defined.

(** ** Views of a final state *)

(** The fields of the dict a value refers to. *)
Definition fields_of (h : list object) (v : value) : option dict :=
  match obj_of h v with Some (ODict kvs) => Some kvs | _ => None end.

(** The elements of the list a value refers to. *)
Definition elems_of (h : list object) (v : value) : option (list value) :=
  match obj_of h v with Some (OList vs) => Some vs | _ => None end.

(** What [report.plot_data] holds under [id]. *)
Definition registered (w : world) (id : string) : option dict :=
  match table_get id (plot_data w) with
  | Some payload => fields_of (heap w) payload
  | None => None
  end.

(** Dataset [i] of the payload registered under [id]. *)
Definition registered_dataset (w : world) (id : string) (i : nat) : option (list value) :=
  match registered w id with
  | Some payload =>
      match dict_get "datasets" payload with
      | Some plotdata =>
          match elems_of (heap w) plotdata with
          | Some ds => match ds !! i with
                       | Some d => elems_of (heap w) d
                       | None => None
                       end
          | None => None
          end
      | None => None
      end
  | None => None
  end.

(** ** Missing [data_labels] entries (lines 50-54) *)

(** C4. With two non-empty datasets and a one-entry [data_labels], line 52
    indexes [data_labels] at 1 and [plot] ends in [IndexError]; the label
    code of [highcharts_scatter_plot] (lines 148-151), given the same
    configuration, falls back to the dataset number. *)
Theorem short_data_labels_raise :
  fst (plot (demo_env false NoScatter) (VRef 4) (VRef 6)
         (fresh_world short_labels_store)) = Raise IndexError /\
  series_config (VRef 6) 0 short_labels_store = Ok [("data_labels", VRef 5)] /\
  series_config (VRef 6) 1 short_labels_store = Raise IndexError /\
  switch_button (demo_env false NoScatter) (VRef 6) 1
    (<[6%nat := ODict [("data_labels", VRef 5); ("id", VStr "p")]]> short_labels_store)
  = Ok (button_markup "" "" "" "" "1" "p" "2").
Proof. repeat split; reflexivity. Qed.

(** ** Closed runs that settle what the builder does *)

(** [plot({"s": {"x": 1, "y": 2}}, {"extra_series": {"x": 0, "y": 0}})] *)
Definition unnamed_extra_store : list object :=
  [ ODict [("x", VInt 1); ("y", VInt 2)];
    ODict [("s", VRef 0)];
    ODict [("x", VInt 0); ("y", VInt 0)];
    ODict [("extra_series", VRef 2)] ].

(** [plot({"s": {"x": -3, "y": -7}}, {"square": True})] *)
Definition negative_store : list object :=
  [ ODict [("x", VInt (-3)); ("y", VInt (-7))];
    ODict [("s", VRef 0)];
    ODict [("square", VBool true)] ].

(** [plot({"s": {"x": None, "y": 1}}, {"square": True})] *)
Definition null_square_store : list object :=
  [ ODict [("x", VNone); ("y", VInt 1)];
    ODict [("s", VRef 0)];
    ODict [("square", VBool true)] ].

(** [plot({"s": {"x": 1, "y": 1}}, {"color": {"other": "red"}})] *)
Definition other_sample_color_store : list object :=
  [ ODict [("x", VInt 1); ("y", VInt 1)];
    ODict [("s", VRef 0)];
    ODict [("other", VStr "red")];
    ODict [("color", VRef 2)] ].

Definition final (E : env) (data pconfig : value) (h : list object) : world :=
  snd (plot E data pconfig (fresh_world h)).

(** The extra point of [unnamed_extra_store] is in the registered dataset and
    carries no [name]. *)
Lemma extra_series_point_without_name :
  let w := final (demo_env false NoScatter) (VRef 1) (VRef 3) unnamed_extra_store in
  registered_dataset w "mqc_hcplot_abcdefghij" 0 = Some [VRef 2; VRef 0] /\
  fields_of (heap w) (VRef 2) = Some [("x", VInt 0); ("y", VInt 0)] /\
  ~ (forall p, In p [VRef 2; VRef 0] ->
       exists f n, fields_of (heap w) p = Some f /\
                   dict_get "name" f = Some n /\ n <> VNone).
Proof.
  split; [reflexivity |]. split; [reflexivity |].
  intros H. destruct (H (VRef 2)) as (f & n & Hf & Hn & _); [left; reflexivity |].
  vm_compute in Hf. inversion Hf; subst. discriminate.
Qed.

(** With only negative coordinates the square bounds are [1.02 * 0], not
    [1.02] times the largest coordinate. *)
Lemma square_bounds_not_the_maximum :
  let w := final (demo_env false NoScatter) (VRef 1) (VRef 2) negative_store in
  exists cfg, fields_of (heap w) (VRef 2) = Some cfg /\
    dict_get "xmax" cfg = Some (VFloat (S754_zero false)) /\
    dict_get "ymax" cfg = Some (VFloat (S754_zero false)) /\
    py_fmul f_1_02 (VInt (-3)) <> Ok (VFloat (S754_zero false)).
Proof.
  eexists. split; [reflexivity |]. split; [reflexivity |]. split; [reflexivity |].
  intros H. vm_compute in H. discriminate.
Qed.

(** A null coordinate reaches [max] and the build ends in [TypeError]. *)
Lemma square_null_coordinate_raises :
  fst (plot (demo_env false NoScatter) (VRef 1) (VRef 2)
         (fresh_world null_square_store)) = Raise TypeError.
Proof. reflexivity. Qed.

(** A per-sample colour table without the sample's key is itself copied to
    the point. *)
Lemma table_without_sample_is_copied :
  let w := final (demo_env false NoScatter) (VRef 1) (VRef 3) other_sample_color_store in
  exists f, fields_of (heap w) (VRef 0) = Some f /\
    dict_get "color" f = Some (VRef 2) /\
    fields_of (heap w) (VRef 2) = Some [("other", VStr "red")] /\
    dict_get "color" f <> None.
Proof.
  eexists. split; [reflexivity |]. split; [reflexivity |]. split; [reflexivity |].
  discriminate.
Qed.

(** ** Facts about dicts and the store *)

Lemma dict_get_set_eq k v d : dict_get k (dict_set k v d) = Some v.
Proof.
  induction d as [| [k' v'] d IH]; simpl.
  - rewrite String.eqb_refl. reflexivity.
  - destruct (String.eqb k k') eqn:Ek; simpl.
    + rewrite String.eqb_refl. reflexivity.
    + rewrite Ek. exact IH.
Qed.

Lemma dict_get_set_ne k k' v d : k <> k' -> dict_get k' (dict_set k v d) = dict_get k' d.
Proof.
  intros Hne. induction d as [| [k0 v0] d IH]; simpl.
  - destruct (String.eqb k' k) eqn:Ek; [| reflexivity].
    apply String.eqb_eq in Ek. congruence.
  - destruct (String.eqb k k0) eqn:Ek; simpl.
    + apply String.eqb_eq in Ek. subst k0.
      destruct (String.eqb k' k) eqn:Ek'; [| reflexivity].
      apply String.eqb_eq in Ek'. congruence.
    + destruct (String.eqb k' k0); [reflexivity | exact IH].
Qed.

Lemma dict_mem_set_ne k k' v d : k <> k' -> dict_mem k' (dict_set k v d) = dict_mem k' d.
Proof. intros H. unfold dict_mem. rewrite dict_get_set_ne by exact H. reflexivity. Qed.

Lemma dict_set_set k v v' d : dict_set k v' (dict_set k v d) = dict_set k v' d.
Proof.
  induction d as [| [k0 v0] d IH]; simpl.
  - rewrite String.eqb_refl. reflexivity.
  - destruct (String.eqb k k0) eqn:Ek; simpl.
    + rewrite String.eqb_refl. reflexivity.
    + rewrite Ek, IH. reflexivity.
Qed.

Lemma as_dict_at h l kvs : h !! l = Some (ODict kvs) -> as_dict (VRef l) h = Ok kvs.
Proof. unfold as_dict; simpl. intros ->. reflexivity. Qed.

Lemma as_dict_Ok v h kvs :
  as_dict v h = Ok kvs -> exists l, v = VRef l /\ h !! l = Some (ODict kvs).
Proof.
  unfold as_dict, obj_of. destruct v; try discriminate.
  destruct (h !! l) as [[vs | kvs'] |] eqn:El; try discriminate.
  intros H; inversion H; subst. eauto.
Qed.

Lemma py_setitem_dict l kvs k v w :
  heap w !! l = Some (ODict kvs) ->
  py_setitem (VRef l) (VStr k) v w
  = (Ok tt, set_heap (<[l := ODict (dict_set k v kvs)]> (heap w)) w).
Proof. unfold py_setitem, store. intros ->. reflexivity. Qed.

Lemma lookup_insert_same (h : list object) l o o' :
  h !! l = Some o -> <[l := o']> h !! l = Some o'.
Proof.
  intros H. apply list_lookup_insert_eq. eapply lookup_lt_Some. exact H.
Qed.

Lemma insert_insert_same (h : list object) l o o' :
  <[l := o']> (<[l := o]> h) = <[l := o']> h.
Proof. apply list_insert_insert_eq. Qed.

(** ** [highcharts_scatter_plot], step by step *)

(** The configuration once the plot id is settled. *)
Definition with_default_id (E : env) (cfg : dict) : dict :=
  match dict_get_default "id" cfg VNone with
  | VNone => dict_set "id" (VStr ("mqc_hcplot_" +:+ random_letters E)) cfg
  | _ => cfg
  end.

(** The identifier handed to [report.save_htmlid]: the caller's [id], or a
    generated one when there is none ([None] counts as none). *)
Definition id_candidate (E : env) (cfg : dict) : value :=
  match dict_get_default "id" cfg VNone with
  | VNone => VStr ("mqc_hcplot_" +:+ random_letters E)
  | v => v
  end.

Lemma with_default_id_candidate E cfg :
  dict_get "id" (with_default_id E cfg) = Some (id_candidate E cfg).
Proof.
  unfold with_default_id, id_candidate, dict_get_default.
  destruct (dict_get "id" cfg) as [v |] eqn:Eid.
  - destruct v; try exact Eid. apply dict_get_set_eq.
  - apply dict_get_set_eq.
Qed.

Definition payload_of (plotdata pconfig : value) : object :=
  ODict [("plot_type", VStr "scatter"); ("datasets", plotdata); ("config", pconfig)].

Lemma highcharts_inv E plotdata pc cfg w out w' :
  heap w !! pc = Some (ODict cfg) ->
  highcharts_scatter_plot E plotdata (VRef pc) w = (Ok out, w') ->
  exists id0 id ids' sw ct n w3,
    let cfg2 := dict_set "id" (VStr id) (with_default_id E cfg) in
    let h2 := <[pc := ODict cfg2]> (heap w) in
    dict_get "id" (with_default_id E cfg) = Some id0 /\
    save_htmlid E id0 (html_ids w) = (Ok id, ids') /\
    switch_group E plotdata (VRef pc) h2 = Ok sw /\
    plot_container E (VRef pc) h2 = Ok ct /\
    out = VStr (page_open +:+ sw +:+ ct) /\
    py_len plotdata h2 = Ok n /\
    reverse_datasets n 0 plotdata (World h2 (plot_data w) (num_hc_plots w + 1) ids')
      = (Ok tt, w3) /\
    w' = World (heap w3 ++ [payload_of plotdata (VRef pc)])
               (table_set id (VRef (length (heap w3))) (plot_data w3))
               (num_hc_plots w3) (html_ids w3).
Proof.
  intros Hpc Hrun. unfold highcharts_scatter_plot in Hrun. simpl default_pconfig in Hrun.
  apply bind_Ok in Hrun as (pc' & w0 & H0 & Hrun). inversion H0; subst pc' w0; clear H0.
  apply bind_Ok in Hrun as (cfg' & w0 & H0 & Hrun).
  apply rd_Ok in H0 as [-> H0]. rewrite (as_dict_at _ _ _ Hpc) in H0.
  inversion H0; subst cfg'; clear H0.
  apply bind_Ok in Hrun as ([] & w1 & H1 & Hrun).
  assert (Hw1 : w1 = set_heap (<[pc := ODict (with_default_id E cfg)]> (heap w)) w).
  { unfold with_default_id.
    destruct (dict_get_default "id" cfg VNone) eqn:Eid;
      try (inversion H1; subst w1; unfold set_heap; destruct w; simpl in *;
           rewrite list_insert_id by exact Hpc; reflexivity).
    rewrite (py_setitem_dict _ _ _ _ _ Hpc) in H1. inversion H1. reflexivity. }
  clear H1. subst w1.
  assert (Hpc1 : heap (set_heap (<[pc := ODict (with_default_id E cfg)]> (heap w)) w) !! pc
                 = Some (ODict (with_default_id E cfg))).
  { simpl. eapply lookup_insert_same. exact Hpc. }
  apply bind_Ok in Hrun as (id0 & w0 & H0 & Hrun).
  apply rd_Ok in H0 as [-> H0].
  unfold py_getitem in H0. rewrite Hpc1 in H0.
  destruct (dict_get "id" (with_default_id E cfg)) as [id0' |] eqn:Eid0; [| discriminate].
  inversion H0; subst id0'; clear H0.
  apply bind_Ok in Hrun as (id & w2 & H2 & Hrun).
  unfold call_save_htmlid in H2. simpl in H2.
  destruct (save_htmlid E id0 (html_ids w)) as [r ids'] eqn:Esave.
  inversion H2; subst r w2; clear H2.
  apply bind_Ok in Hrun as ([] & w3 & H3 & Hrun).
  rewrite (py_setitem_dict pc (with_default_id E cfg)) in H3 by (simpl; eapply lookup_insert_same; exact Hpc).
  inversion H3; subst w3; clear H3. simpl in Hrun. rewrite insert_insert_same in Hrun.
  apply bind_Ok in Hrun as (sw & w0 & H0 & Hrun). apply rd_Ok in H0 as [-> Hsw].
  apply bind_Ok in Hrun as (ct & w0 & H0 & Hrun). apply rd_Ok in H0 as [-> Hct].
  apply bind_Ok in Hrun as ([] & w4 & H4 & Hrun).
  inversion H4; subst w4; clear H4.
  apply bind_Ok in Hrun as (n & w0 & H0 & Hrun). apply rd_Ok in H0 as [-> Hn].
  apply bind_Ok in Hrun as ([] & w5 & H5 & Hrun).
  apply bind_Ok in Hrun as (payload & w6 & H6 & Hrun).
  inversion H6; subst payload w6; clear H6.
  apply bind_Ok in Hrun as ([] & w7 & H7 & Hrun).
  inversion H7; subst w7; clear H7. inversion Hrun; subst out w'; clear Hrun.
  simpl in *.
  exists id0, id, ids', sw, ct, n, w5. repeat split; try assumption; reflexivity.
Qed.

(** ** Switch controls (lines 143-167) *)

(** The entries of [data_labels], none when the key is missing. *)
Definition data_label_entries (cfg : dict) (h : list object) : list value :=
  match dict_get "data_labels" cfg with
  | Some v => match py_iter v h with Ok dls => dls | Raise _ => [] end
  | None => []
  end.

(** Field [key] of entry [k] of [data_labels]: the entry's own field when the
    entry is a mapping; a bare label has the one field [name], itself. *)
Definition entry_field (h : list object) (labels : list value) (k : nat) (key : string)
  : option value :=
  match labels !! k with
  | Some dl =>
      match fields_of h dl with
      | Some kvs => dict_get key kvs
      | None => if String.eqb key "name" then Some dl else None
      end
  | None => None
  end.

(** The display name of dataset [k]: the [name] of entry [k], or the 1-based
    index. *)
Definition display_name (h : list object) (labels : list value) (k : nat) : value :=
  match entry_field h labels k "name" with
  | Some v => v
  | None => VInt (Z.of_nat k + 1)
  end.

(** The label of the control of dataset [k], in the words of the
    specification: the [name] of entry [k] when that entry is a mapping with
    a name, the entry itself when it is not a mapping, and the 1-based index
    otherwise. *)
Definition spec_label (E : env) (h : list object) (labels : list value) (k : nat)
  : string :=
  match labels !! k with
  | Some dl =>
      match fields_of h dl with
      | Some kvs =>
          match dict_get "name" kvs with
          | Some n => py_str E h n
          | None => pretty (Z.of_nat k + 1)
          end
      | None => py_str E h dl
      end
  | None => pretty (Z.of_nat k + 1)
  end.

Definition join (bs : list string) : string := fold_right String.append "" bs.

(** The axis-label hint [data-ylab] or [data-xlab] of control [k]: the
    entry's [ylab] or [xlab] when it has one, else the display name unless
    that is the bare index, else nothing. *)
Definition axis_hint (E : env) (h : list object) (labels : list value) (k : nat)
    (key : string) : string :=
  match entry_field h labels k key with
  | Some v => "data-" +:+ key +:+ "=" +:+ dq +:+ py_str E h v +:+ dq
  | None =>
      if py_eq_int (display_name h labels k) (Z.of_nat k + 1) then ""
      else "data-" +:+ key +:+ "=" +:+ dq +:+ py_str E h (display_name h labels k) +:+ dq
  end.

(** The axis-maximum hint [data-ymax] of control [k]: the entry's [ymax] when
    it has one. *)
Definition max_hint (E : env) (h : list object) (labels : list value) (k : nat) : string :=
  match entry_field h labels k "ymax" with
  | Some v => "data-ymax=" +:+ dq +:+ py_str E h v +:+ dq
  | None => ""
  end.

(** The switch control of dataset [k], character by character: a [button]
    whose class ends in [active] for the first dataset only, whose
    [data-newdata] is the dataset index, whose [data-target] is the plot id
    and whose text is the label. *)
Definition control (E : env) (h : list object) (labels : list value) (id : string)
    (k : nat) : string :=
  "<button class=" +:+ dq +:+ "btn btn-default btn-sm "
  +:+ (if Nat.eqb k 0 then "active" else "") +:+ dq
  +:+ " data-action=" +:+ dq +:+ "set_data" +:+ dq
  +:+ " " +:+ axis_hint E h labels k "ylab"
  +:+ " " +:+ max_hint E h labels k
  +:+ " " +:+ axis_hint E h labels k "xlab"
  +:+ " data-newdata=" +:+ dq +:+ pretty (Z.of_nat k) +:+ dq
  +:+ " data-target=" +:+ dq +:+ id +:+ dq
  +:+ ">" +:+ spec_label E h labels k +:+ "</button>" +:+ nl.

(** The plot container for plot [id], with the height the configuration
    asks for. *)
Definition container (E : env) (h : list object) (height : option value) (id : string)
  : string :=
  "<div class=" +:+ dq +:+ "hc-plot-wrapper" +:+ dq
  +:+ match height with
      | Some v => " style=" +:+ dq +:+ "height:" +:+ py_str E h v +:+ "px" +:+ dq
      | None => ""
      end
  +:+ "><div id=" +:+ dq +:+ id +:+ dq
  +:+ " class=" +:+ dq +:+ "hc-plot not_rendered hc-scatter-plot" +:+ dq
  +:+ "><small>loading..</small></div></div></div> " +:+ nl.

(** The markup for [n] datasets: the opening of the plot group; when there
    is more than one dataset, a switch group holding the controls of
    datasets [0 .. n-1] in order, and otherwise nothing; the container. *)
Definition markup (E : env) (h : list object) (labels : list value)
    (height : option value) (id : string) (n : nat) : string :=
  "<div class=" +:+ dq +:+ "mqc_hcplot_plotgroup" +:+ dq +:+ ">"
  +:+ (if (1 <? n)%nat
       then "<div class=" +:+ dq +:+ "btn-group hc_switch_group" +:+ dq +:+ ">" +:+ nl
            +:+ join (map (control E h labels id) (seq 0 n))
            +:+ "</div>" +:+ nl +:+ nl
       else "")
  +:+ container E h height id.

Lemma append_assoc (s1 s2 s3 : string) : (s1 +:+ s2) +:+ s3 = s1 +:+ s2 +:+ s3.
Proof.
  induction s1 as [| c s1 IH]; [reflexivity |].
  change (String c ((s1 +:+ s2) +:+ s3) = String c (s1 +:+ s2 +:+ s3)).
  f_equal. exact IH.
Qed.

Lemma label_dicts_entries cfg h dls :
  label_dicts cfg h = Ok dls ->
  dls = map (fun dl => match obj_of h dl with
                       | Some (ODict kvs) => kvs
                       | _ => [("name", dl)]
                       end) (data_label_entries cfg h).
Proof.
  unfold label_dicts, data_label_entries.
  destruct (dict_get "data_labels" cfg) as [v |]; [| intros H; inversion H; reflexivity].
  destruct (py_iter v h) as [l | e]; simpl; intros H; inversion H; reflexivity.
Qed.

Lemma label_field_entries h labels k key :
  label_field (map (fun dl => match obj_of h dl with
                              | Some (ODict kvs) => kvs
                              | _ => [("name", dl)]
                              end) labels) k key
  = entry_field h labels k key.
Proof.
  unfold label_field, entry_field, fields_of. rewrite list_lookup_fmap.
  destruct (labels !! k) as [dl |]; simpl; [| reflexivity].
  destruct (obj_of h dl) as [[vs | kvs] |]; simpl; try reflexivity;
    destruct (String.eqb key "name"); reflexivity.
Qed.

Lemma display_name_label E h labels k :
  py_str E h (display_name h labels k) = spec_label E h labels k.
Proof.
  unfold display_name, entry_field, spec_label.
  destruct (labels !! k) as [dl |]; simpl; [| reflexivity].
  destruct (fields_of h dl) as [kvs |]; simpl; [| reflexivity].
  destruct (dict_get "name" kvs); reflexivity.
Qed.

Lemma switch_button_control E pc cfg idv k h b :
  h !! pc = Some (ODict cfg) ->
  dict_get "id" cfg = Some idv ->
  switch_button E (VRef pc) k h = Ok b ->
  b = control E h (data_label_entries cfg h) (py_str E h idv) k.
Proof.
  intros Hpc Hid Hb. unfold switch_button in Hb.
  rewrite (as_dict_at _ _ _ Hpc) in Hb. simpl in Hb.
  apply rbind_Ok in Hb as (dls & Hdls & Hb).
  apply label_dicts_entries in Hdls. subst dls.
  unfold py_getitem in Hb. rewrite Hpc, Hid in Hb. simpl in Hb.
  injection Hb as <-.
  rewrite !label_field_entries.
  fold (display_name h (data_label_entries cfg h) k).
  unfold control, button_markup, axis_hint, max_hint, attr.
  rewrite <- display_name_label.
  destruct (entry_field h (data_label_entries cfg h) k "ylab");
    destruct (entry_field h (data_label_entries cfg h) k "ymax");
    destruct (entry_field h (data_label_entries cfg h) k "xlab");
    destruct (py_eq_int (display_name h (data_label_entries cfg h) k) (Z.of_nat k + 1));
    rewrite ?append_assoc; reflexivity.
Qed.

Lemma switch_buttons_controls E pc cfg idv ks h s :
  h !! pc = Some (ODict cfg) ->
  dict_get "id" cfg = Some idv ->
  switch_buttons E (VRef pc) ks h = Ok s ->
  s = join (map (control E h (data_label_entries cfg h) (py_str E h idv)) ks).
Proof.
  intros Hpc Hid. revert s. induction ks as [| k ks IH]; simpl; intros s Hs.
  - inversion Hs. reflexivity.
  - apply rbind_Ok in Hs as (b & Hb & Hs).
    apply rbind_Ok in Hs as (rest & Hrest & Hs). inversion Hs; subst s.
    rewrite (IH _ Hrest).
    rewrite (switch_button_control _ _ _ _ _ _ _ Hpc Hid Hb). reflexivity.
Qed.

Lemma plot_container_text E pc cfg id h ct :
  h !! pc = Some (ODict cfg) ->
  dict_get "id" cfg = Some (VStr id) ->
  plot_container E (VRef pc) h = Ok ct ->
  ct = container E h (dict_get "height" cfg) id.
Proof.
  intros Hpc Hid Hct. unfold plot_container in Hct.
  rewrite (as_dict_at _ _ _ Hpc) in Hct. simpl in Hct.
  unfold py_getitem in Hct. rewrite Hpc, Hid in Hct. simpl in Hct.
  injection Hct as <-. unfold container, attr.
  destruct (dict_get "height" cfg); rewrite ?append_assoc; reflexivity.
Qed.

(** C9. In the markup [highcharts_scatter_plot] returns, with [h2] the store
    at the time the markup is built (the caller's store with the plot id
    [report.save_htmlid] returned settled in the configuration) and the
    labels read from [data_labels] there: when there is more than one
    dataset, the switch group holds exactly one control per dataset, in
    order, control [k] being the [button] spelled out by [control]: labelled
    by the [name] of entry [k] when that entry is a mapping with a name, by
    the entry itself when it is not a mapping, and by the 1-based index
    otherwise, carrying the class [active] only for [k = 0], the dataset
    index, the plot id and the axis hints of entry [k]; when there is at most
    one dataset the markup is the opening tag followed by the plot container,
    with no control. *)
Theorem switch_controls_one_per_dataset
    (E : env) (pd pc : loc) (items : list value) (cfg : dict)
    (w w' : world) (out : value) :
  heap w !! pd = Some (OList items) ->
  heap w !! pc = Some (ODict cfg) ->
  highcharts_scatter_plot E (VRef pd) (VRef pc) w = (Ok out, w') ->
  exists id cfg2 ids',
    let h2 := <[pc := ODict cfg2]> (heap w) in
    let labels := data_label_entries cfg2 h2 in
    save_htmlid E (id_candidate E cfg) (html_ids w) = (Ok id, ids') /\
    dict_get "id" cfg2 = Some (VStr id) /\
    (forall k, k <> "id" -> dict_get k cfg2 = dict_get k cfg) /\
    out = VStr (markup E h2 labels (dict_get "height" cfg2) id (length items)) /\
    length (map (control E h2 labels id) (seq 0 (length items))) = length items /\
    ((length items <= 1)%nat ->
     out = VStr ("<div class=" +:+ dq +:+ "mqc_hcplot_plotgroup" +:+ dq +:+ ">"
                 +:+ container E h2 (dict_get "height" cfg2) id)).
Proof.
  intros Hpd Hpc Hrun.
  destruct (highcharts_inv _ _ _ _ _ _ _ Hpc Hrun)
    as (id0 & id & ids' & sw & ct & n & w3 & Hid0 & Hsave & Hsw & Hct & Hout & _).
  rewrite with_default_id_candidate in Hid0. inversion Hid0; subst id0; clear Hid0.
  set (cfg2 := dict_set "id" (VStr id) (with_default_id E cfg)) in *.
  set (h2 := <[pc := ODict cfg2]> (heap w)) in *.
  assert (Hne : pd <> pc) by (intros ->; rewrite Hpd in Hpc; discriminate).
  assert (Hpd2 : h2 !! pd = Some (OList items)).
  { unfold h2. rewrite list_lookup_insert_ne by auto. exact Hpd. }
  assert (Hpc2 : h2 !! pc = Some (ODict cfg2)).
  { unfold h2. eapply lookup_insert_same. exact Hpc. }
  assert (Hid2 : dict_get "id" cfg2 = Some (VStr id)) by apply dict_get_set_eq.
  apply (plot_container_text _ _ _ _ _ _ Hpc2 Hid2) in Hct. subst ct.
  assert (Hmarkup : out = VStr (markup E h2 (data_label_entries cfg2 h2)
                                  (dict_get "height" cfg2) id (length items))).
  { unfold switch_group, py_len, py_iter in Hsw. rewrite Hpd2 in Hsw. simpl in Hsw.
    unfold markup. subst out. unfold page_open, attr.
    destruct (1 <? length items)%nat.
    - apply rbind_Ok in Hsw as (buttons & Hbs & Hsw). inversion Hsw; subst sw.
      rewrite (switch_buttons_controls _ _ _ _ _ _ _ Hpc2 Hid2 Hbs).
      unfold group_open, group_close, attr.
      rewrite ?append_assoc. reflexivity.
    - inversion Hsw; subst sw. reflexivity. }
  exists id, cfg2, ids'. cbv zeta. fold h2.
  split; [exact Hsave |]. split; [exact Hid2 |]. split.
  { intros k Hk. unfold cfg2. rewrite dict_get_set_ne by auto.
    unfold with_default_id. destruct (dict_get_default "id" cfg VNone); try reflexivity.
    apply dict_get_set_ne. auto. }
  split; [exact Hmarkup |]. split.
  { rewrite length_map, length_seq. reflexivity. }
  intros Hle. rewrite Hmarkup. unfold markup.
  destruct (1 <? length items)%nat eqn:El; [| reflexivity].
  apply Nat.ltb_lt in El. lia.
Qed.

(** [highcharts_scatter_plot([[], []], {})] *)
Definition two_empty_datasets : list object :=
  [ OList []; OList []; OList [VRef 0; VRef 1]; ODict [] ].

Definition markup_of (r : result value * world) : value :=
  match fst r with Ok v => v | Raise _ => VNone end.

(** [highcharts_scatter_plot([[], []],
      {"data_labels": [{"name": "Run1"}, {"name": "Run2", "ylab": "Reads"}],
       "id": "p"})] *)
Definition run_labels_store : list object :=
  [ OList []; OList []; OList [VRef 0; VRef 1];
    ODict [("name", VStr "Run1")];
    ODict [("name", VStr "Run2"); ("ylab", VStr "Reads")];
    OList [VRef 3; VRef 4];
    ODict [("data_labels", VRef 5); ("id", VStr "p")] ].

Lemma switch_controls_witness :
  exists id cfg2 ids',
    let h2 := <[6%nat := ODict cfg2]> (heap (fresh_world run_labels_store)) in
    let labels := data_label_entries cfg2 h2 in
    save_htmlid (demo_env false NoScatter)
      (id_candidate (demo_env false NoScatter) [("data_labels", VRef 5); ("id", VStr "p")])
      (html_ids (fresh_world run_labels_store)) = (Ok id, ids') /\
    dict_get "id" cfg2 = Some (VStr id) /\
    (forall k, k <> "id" ->
       dict_get k cfg2 = dict_get k [("data_labels", VRef 5); ("id", VStr "p")]) /\
    markup_of (highcharts_scatter_plot (demo_env false NoScatter) (VRef 2) (VRef 6)
                 (fresh_world run_labels_store))
    = VStr (markup (demo_env false NoScatter) h2 labels (dict_get "height" cfg2) id
              (length [VRef 0; VRef 1])) /\
    length (map (control (demo_env false NoScatter) h2 labels id)
              (seq 0 (length [VRef 0; VRef 1]))) = length [VRef 0; VRef 1] /\
    ((length [VRef 0; VRef 1] <= 1)%nat ->
     markup_of (highcharts_scatter_plot (demo_env false NoScatter) (VRef 2) (VRef 6)
                  (fresh_world run_labels_store))
     = VStr ("<div class=" +:+ dq +:+ "mqc_hcplot_plotgroup" +:+ dq +:+ ">"
             +:+ container (demo_env false NoScatter) h2 (dict_get "height" cfg2) id)).
Proof.
  exact (switch_controls_one_per_dataset (demo_env false NoScatter) 2%nat 6%nat
           [VRef 0; VRef 1] [("data_labels", VRef 5); ("id", VStr "p")]
           (fresh_world run_labels_store)
           (snd (highcharts_scatter_plot (demo_env false NoScatter) (VRef 2) (VRef 6)
                   (fresh_world run_labels_store)))
           _ eq_refl eq_refl eq_refl).
Defined.

(** The two controls of [run_labels_store], as text. *)
Example switch_controls_of_two_runs :
  map (control (demo_env false NoScatter) run_labels_store [VRef 3; VRef 4] "p") (seq 0 2)
  = [ "<button class=" +:+ dq +:+ "btn btn-default btn-sm active" +:+ dq
      +:+ " data-action=" +:+ dq +:+ "set_data" +:+ dq
      +:+ " data-ylab=" +:+ dq +:+ "Run1" +:+ dq
      +:+ "  data-xlab=" +:+ dq +:+ "Run1" +:+ dq
      +:+ " data-newdata=" +:+ dq +:+ "0" +:+ dq
      +:+ " data-target=" +:+ dq +:+ "p" +:+ dq +:+ ">Run1</button>" +:+ nl;
      "<button class=" +:+ dq +:+ "btn btn-default btn-sm " +:+ dq
      +:+ " data-action=" +:+ dq +:+ "set_data" +:+ dq
      +:+ " data-ylab=" +:+ dq +:+ "Reads" +:+ dq
      +:+ "  data-xlab=" +:+ dq +:+ "Run2" +:+ dq
      +:+ " data-newdata=" +:+ dq +:+ "1" +:+ dq
      +:+ " data-target=" +:+ dq +:+ "p" +:+ dq +:+ ">Run2</button>" +:+ nl ].
Proof. vm_compute. reflexivity. Qed.

(** ** Z-order (lines 177-181) *)

(** The store after [d.reverse()] for every list [d] of [ds], in turn. *)
Definition reverse_at (h : list object) (d : loc) : list object :=
  match h !! d with
  | Some (OList vs) => <[d := OList (rev vs)]> h
  | _ => h
  end.

Definition reverse_all (ds : list loc) (h : list object) : list object :=
  fold_left reverse_at ds h.

Lemma reverse_at_other h d l : l <> d -> reverse_at h d !! l = h !! l.
Proof.
  intros Hne. unfold reverse_at.
  destruct (h !! d) as [[vs | kvs] |]; try reflexivity.
  apply list_lookup_insert_ne. auto.
Qed.

Lemma reverse_at_same h d vs :
  h !! d = Some (OList vs) -> reverse_at h d !! d = Some (OList (rev vs)).
Proof.
  intros H. unfold reverse_at. rewrite H. eapply lookup_insert_same. exact H.
Qed.

Lemma reverse_all_other ds : forall h l, l ∉ ds -> reverse_all ds h !! l = h !! l.
Proof.
  induction ds as [| d ds IH]; intros h l Hl; simpl; [reflexivity |].
  rewrite not_elem_of_cons in Hl. destruct Hl as [Hne Hl].
  rewrite IH by exact Hl. apply reverse_at_other. exact Hne.
Qed.

Lemma reverse_all_member ds : forall h d vs,
  NoDup ds -> d ∈ ds -> h !! d = Some (OList vs) ->
  reverse_all ds h !! d = Some (OList (rev vs)).
Proof.
  induction ds as [| d0 ds IH]; intros h d vs Hnd Hin Hd; simpl.
  - inversion Hin.
  - apply NoDup_cons in Hnd as [Hd0 Hnd].
    apply elem_of_cons in Hin as [-> | Hin].
    + rewrite reverse_all_other by exact Hd0. apply reverse_at_same. exact Hd.
    + apply IH; [exact Hnd | exact Hin |].
      rewrite reverse_at_other; [exact Hd |]. intros ->. contradiction.
Qed.

Lemma reverse_datasets_run pd : forall rest done h w,
  h !! pd = Some (OList (map VRef (done ++ rest))) ->
  pd ∉ rest ->
  (forall d, d ∈ rest -> exists pts, h !! d = Some (OList pts)) ->
  reverse_datasets (length rest) (length done) (VRef pd) (set_heap h w)
  = (Ok tt, set_heap (reverse_all rest h) w).
Proof.
  induction rest as [| d rest IH]; intros done h w Hpd Hnot Hlists; [reflexivity |].
  simpl reverse_datasets. unfold bind at 1, rd at 1, py_iter. simpl heap.
  rewrite Hpd.
  assert (Hd : map VRef (done ++ d :: rest) !! length done = Some (VRef d)).
  { rewrite list_lookup_fmap, lookup_app_r by lia.
    replace (length done - length done)%nat with 0%nat by lia. reflexivity. }
  rewrite Hd.
  destruct (Hlists d) as [pts Hpts]; [left |].
  unfold bind, list_reverse, store. simpl heap. rewrite Hpts.
  assert (Hne : pd <> d) by (intros ->; apply Hnot; left).
  specialize (IH (done ++ [d]) (<[d := OList (rev pts)]> h) w).
  rewrite length_app in IH. simpl in IH.
  replace (length done + 1)%nat with (S (length done)) in IH by lia.
  unfold set_heap in *. simpl in *.
  rewrite IH.
  - unfold reverse_at. rewrite Hpts. reflexivity.
  - rewrite list_lookup_insert_ne by auto. rewrite <- app_assoc. exact Hpd.
  - intros Hin. apply Hnot. right. exact Hin.
  - intros d' Hd'. destruct (decide (d' = d)) as [-> | Hne'].
    + exists (rev pts). eapply lookup_insert_same. exact Hpts.
    + rewrite list_lookup_insert_ne by auto. apply Hlists. right. exact Hd'.
Qed.

Lemma table_get_set {A} id (a : A) t : table_get id (table_set id a t) = Some a.
Proof.
  induction t as [| [k' a'] t IH]; simpl.
  - rewrite String.eqb_refl. reflexivity.
  - destruct (String.eqb id k') eqn:Ek; simpl.
    + rewrite String.eqb_refl. reflexivity.
    + rewrite Ek. exact IH.
Qed.

(** Lines 175-181.  When [highcharts_scatter_plot] returns, with [id] the
    plot id, that is, the identifier [report.save_htmlid] gave back and the
    configuration dict now carries under ["id"]: the payload registered under
    [id] holds [plotdata] and the configuration dict themselves, and each of
    its datasets holds the points it held on entry (that is, after
    filtering, decoration and the annotation series) in exactly the reverse
    order.  The datasets are distinct list objects, as the ones [plot]
    builds are. *)
Theorem registered_datasets_are_reversed
    (E : env) (pd pc : loc) (ds : list loc) (cfg : dict)
    (w w' : world) (out : value) :
  heap w !! pd = Some (OList (map VRef ds)) ->
  heap w !! pc = Some (ODict cfg) ->
  NoDup ds ->
  pd ∉ ds ->
  (forall d, d ∈ ds -> exists pts, heap w !! d = Some (OList pts)) ->
  highcharts_scatter_plot E (VRef pd) (VRef pc) w = (Ok out, w') ->
  exists id cfg',
    save_htmlid E (id_candidate E cfg) (html_ids w) = (Ok id, html_ids w') /\
    heap w' !! pc = Some (ODict cfg') /\
    dict_get "id" cfg' = Some (VStr id) /\
    registered w' id
      = Some [("plot_type", VStr "scatter"); ("datasets", VRef pd); ("config", VRef pc)] /\
    forall i d pts,
      ds !! i = Some d ->
      heap w !! d = Some (OList pts) ->
      registered_dataset w' id i = Some (rev pts).
Proof.
  intros Hpd Hpc Hnd Hnot Hlists Hrun.
  destruct (highcharts_inv _ _ _ _ _ _ _ Hpc Hrun)
    as (id0 & id & ids' & sw & ct & n & w3 & Hid0 & Hsave & _ & _ & _ & Hn & Hrev & Hw').
  rewrite with_default_id_candidate in Hid0. inversion Hid0; subst id0; clear Hid0.
  set (h2 := <[pc := ODict (dict_set "id" (VStr id) (with_default_id E cfg))]> (heap w)) in *.
  assert (Hother : forall l o, heap w !! l = Some (OList o) -> h2 !! l = Some (OList o)).
  { intros l o Hl. unfold h2. rewrite list_lookup_insert_ne; [exact Hl |].
    intros ->. rewrite Hpc in Hl. discriminate. }
  assert (Hpd2 := Hother _ _ Hpd).
  unfold py_len in Hn. rewrite Hpd2 in Hn. inversion Hn; subst n; clear Hn.
  rewrite length_map in Hrev.
  pose proof (reverse_datasets_run pd ds [] h2
                (World h2 (plot_data w) (num_hc_plots w + 1) ids')) as Hspec.
  simpl in Hspec. unfold set_heap in Hspec. simpl in Hspec.
  rewrite Hspec in Hrev; [| exact Hpd2 | exact Hnot |].
  2:{ intros d Hd. destruct (Hlists d Hd) as [pts Hpts]. eauto. }
  inversion Hrev; subst w3; clear Hrev. simpl in Hw'.
  assert (Hlen : forall l o, reverse_all ds h2 !! l = Some o ->
                   (reverse_all ds h2 ++ [payload_of (VRef pd) (VRef pc)]) !! l = Some o).
  { intros l o Hl. rewrite lookup_app_l; [exact Hl |]. eapply lookup_lt_Some. exact Hl. }
  assert (Hpd3 : reverse_all ds h2 !! pd = Some (OList (map VRef ds))).
  { rewrite reverse_all_other by exact Hnot. exact Hpd2. }
  assert (Hpc3 : reverse_all ds h2 !! pc
                 = Some (ODict (dict_set "id" (VStr id) (with_default_id E cfg)))).
  { rewrite reverse_all_other.
    - unfold h2. eapply lookup_insert_same. exact Hpc.
    - intros Hin. destruct (Hlists pc Hin) as [pts Hpts].
      rewrite Hpc in Hpts. discriminate. }
  exists id, (dict_set "id" (VStr id) (with_default_id E cfg)). subst w'.
  split; [exact Hsave |].
  split; [exact (Hlen _ _ Hpc3) |].
  split; [apply dict_get_set_eq |].
  unfold registered_dataset, registered. simpl.
  rewrite table_get_set. unfold fields_of, elems_of, obj_of.
  rewrite lookup_app_r by lia.
  replace (length (reverse_all ds h2) - length (reverse_all ds h2))%nat with 0%nat by lia.
  simpl. split; [reflexivity |].
  intros i d pts Hi Hd.
  rewrite (Hlen _ _ Hpd3). rewrite list_lookup_fmap, Hi. simpl.
  rewrite (Hlen d (OList (rev pts))); [reflexivity |].
  apply reverse_all_member; [exact Hnd | | apply Hother; exact Hd].
  apply list_elem_of_lookup. eauto.
Qed.

(** [highcharts_scatter_plot([[p, q, r], [q]], {})] for three points. *)
Definition three_point_store : list object :=
  [ ODict [("x", VInt 1); ("y", VInt 1)];
    ODict [("x", VInt 2); ("y", VInt 2)];
    ODict [("x", VInt 3); ("y", VInt 3)];
    OList [VRef 0; VRef 1; VRef 2];
    OList [VRef 1];
    OList [VRef 3; VRef 4];
    ODict [] ].

Lemma registered_datasets_witness :
  exists id cfg',
    demo_save_htmlid (id_candidate (demo_env false NoScatter) []) []
      = (Ok id, html_ids (snd (highcharts_scatter_plot (demo_env false NoScatter)
                                 (VRef 5) (VRef 6) (fresh_world three_point_store)))) /\
    heap (snd (highcharts_scatter_plot (demo_env false NoScatter)
                 (VRef 5) (VRef 6) (fresh_world three_point_store))) !! 6%nat
      = Some (ODict cfg') /\
    dict_get "id" cfg' = Some (VStr id) /\
    registered (snd (highcharts_scatter_plot (demo_env false NoScatter) (VRef 5) (VRef 6)
                       (fresh_world three_point_store))) id
      = Some [("plot_type", VStr "scatter"); ("datasets", VRef 5); ("config", VRef 6)] /\
    forall i d pts,
      [3%nat; 4%nat] !! i = Some d ->
      three_point_store !! d = Some (OList pts) ->
      registered_dataset (snd (highcharts_scatter_plot (demo_env false NoScatter)
                                 (VRef 5) (VRef 6) (fresh_world three_point_store))) id i
      = Some (rev pts).
Proof.
  refine (registered_datasets_are_reversed (demo_env false NoScatter) 5%nat 6%nat
            [3%nat; 4%nat] [] (fresh_world three_point_store) _ _
            eq_refl eq_refl _ _ _ (surjective_pairing _)).
  - apply (bool_decide_unpack _). exact I.
  - apply (bool_decide_unpack _). exact I.
  - intros d Hd. apply elem_of_cons in Hd as [-> | Hd];
      [| apply elem_of_cons in Hd as [-> | Hd]; [| inversion Hd]]; eexists; reflexivity.
Defined.

(** ** The annotation series (lines 97-109) *)

(** A statement that can only fail with an [Exception]. *)
Definition only_Exceptions {A} (m : M A) : Prop :=
  forall w e w', m w = (Raise e, w') -> is_Exception e = true.

Definition builtin_failure {A} (r : result A) : Prop :=
  forall e, r = Raise e -> is_Exception e = true.

Lemma only_ret {A} (a : A) : only_Exceptions (ret a).
Proof. intros w e w' H. discriminate. Qed.

Lemma only_bind {A B} (m : M A) (k : A -> M B) :
  only_Exceptions m -> (forall a, only_Exceptions (k a)) -> only_Exceptions (bind m k).
Proof.
  intros Hm Hk w e w' H. unfold bind in H.
  destruct (m w) as [[a | e0] w1] eqn:Em.
  - eapply Hk. exact H.
  - inversion H; subst. eapply Hm. exact Em.
Qed.

Lemma only_rd {A} (f : list object -> result A) :
  (forall h, builtin_failure (f h)) -> only_Exceptions (rd f).
Proof. intros Hf w e w' H. unfold rd in H. inversion H. eapply Hf. eassumption. Qed.

Lemma only_for_each {A} (xs : list A) (body : A -> M unit) :
  (forall x, only_Exceptions (body x)) -> only_Exceptions (for_each xs body).
Proof.
  intros Hb. induction xs as [| x xs IH]; simpl.
  - apply only_ret.
  - apply only_bind; [apply Hb | intros _; exact IH].
Qed.

Lemma only_for_enum {A} (xs : list A) (body : nat -> A -> M unit) :
  (forall i x, only_Exceptions (body i x)) -> forall i, only_Exceptions (for_enum i xs body).
Proof.
  intros Hb. induction xs as [| x xs IH]; intros i; simpl.
  - apply only_ret.
  - apply only_bind; [apply Hb | intros _; apply IH].
Qed.

Lemma only_alloc o : only_Exceptions (alloc o).
Proof. intros w e w' H. discriminate. Qed.

Lemma only_isinstance_dict v : only_Exceptions (isinstance_dict v).
Proof. intros w e w' H. discriminate. Qed.

Lemma only_isinstance_list v : only_Exceptions (isinstance_list v).
Proof. intros w e w' H. discriminate. Qed.

Lemma only_list_append c v : only_Exceptions (list_append c v).
Proof.
  intros w e w' H. unfold list_append, store in H.
  destruct c; try (inversion H; reflexivity).
  destruct (heap w !! l) as [[vs | kvs] |]; inversion H; reflexivity.
Qed.

Lemma builtin_seq_index {A} (xs : list A) z : builtin_failure (seq_index xs z).
Proof.
  intros e H. unfold seq_index in H.
  destruct (_ <? 0); [inversion H; reflexivity |].
  destruct (xs !! _); inversion H; reflexivity.
Qed.

Lemma builtin_as_dict v h : builtin_failure (as_dict v h).
Proof.
  intros e H. unfold as_dict in H.
  destruct (obj_of h v) as [[vs | kvs] |]; inversion H; reflexivity.
Qed.

Lemma builtin_py_iter v h : builtin_failure (py_iter v h).
Proof.
  intros e H. unfold py_iter in H.
  destruct v; try (inversion H; reflexivity).
  destruct (h !! l) as [[vs | kvs] |]; inversion H; reflexivity.
Qed.

Lemma builtin_py_getitem c i h : builtin_failure (py_getitem c i h).
Proof.
  intros e H. unfold py_getitem in H.
  destruct c; try (inversion H; reflexivity).
  - destruct (index_of i); [| inversion H; reflexivity].
    eapply builtin_seq_index. exact H.
  - destruct (h !! l) as [[vs | kvs] |]; [| | inversion H; reflexivity].
    + destruct (index_of i); [| inversion H; reflexivity].
      eapply builtin_seq_index. exact H.
    + destruct i; try (inversion H; reflexivity).
      destruct (dict_get s kvs); inversion H; reflexivity.
Qed.

Lemma extra_series_body_only plotdata pconfig :
  only_Exceptions (merge_extra_series plotdata pconfig).
Proof.
  unfold merge_extra_series.
  apply only_bind; [apply only_rd, builtin_as_dict |]. intros cfg. simpl.
  apply only_bind; [apply only_rd; intros h e H; discriminate |]. intros [|]; [| apply only_ret].
  apply only_bind; [apply only_isinstance_dict |]. intros isd.
  apply only_bind.
  { destruct isd.
    - apply only_bind; [apply only_alloc | intros; apply only_alloc].
    - apply only_bind; [apply only_isinstance_list |]. intros [|]; [| apply only_ret].
      apply only_bind; [apply only_rd; intros h; apply builtin_py_getitem |]. intros first.
      apply only_bind; [apply only_isinstance_dict |].
      intros [|]; [apply only_alloc | apply only_ret]. }
  intros es. apply only_bind; [apply only_rd; intros h; apply builtin_py_iter |].
  intros entries. unfold merge_entries. apply only_for_enum. intros i x.
  apply only_bind; [apply only_rd; intros h; apply builtin_py_iter |].
  intros points. apply only_for_each. intros s.
  apply only_bind; [apply only_rd; intros h; apply builtin_py_getitem |].
  intros d. apply only_list_append.
Qed.

Lemma add_extra_series_total plotdata pconfig w :
  exists w', add_extra_series plotdata pconfig w = (Ok tt, w').
Proof.
  unfold add_extra_series, try_except_Exception.
  pose proof (extra_series_body_only plotdata pconfig w) as Honly.
  destruct (merge_extra_series plotdata pconfig w) as [[[] | e] w1] eqn:Em.
  - eauto.
  - rewrite (Honly e w1 eq_refl). eauto.
Qed.

(** Appending [es] to the list at [d]. *)
Definition append_at (h : list object) (d : loc) (es : list value) : list object :=
  match h !! d with
  | Some (OList old) => <[d := OList (old ++ es)]> h
  | _ => h
  end.

(** Entry [i] of [ess] appended to dataset [i], for as long as both exist. *)
Fixpoint append_zip (ds : list loc) (ess : list (list value)) (h : list object)
  : list object :=
  match ds, ess with
  | d :: ds', es :: ess' => append_zip ds' ess' (append_at h d es)
  | _, _ => h
  end.

Lemma append_at_other h d es l : l <> d -> append_at h d es !! l = h !! l.
Proof.
  intros Hne. unfold append_at.
  destruct (h !! d) as [[vs | kvs] |]; try reflexivity.
  apply list_lookup_insert_ne. auto.
Qed.

Lemma append_at_same h d es old :
  h !! d = Some (OList old) -> append_at h d es !! d = Some (OList (old ++ es)).
Proof. intros H. unfold append_at. rewrite H. eapply lookup_insert_same. exact H. Qed.

Lemma append_at_length h d es : length (append_at h d es) = length h.
Proof.
  unfold append_at. destruct (h !! d) as [[vs | kvs] |]; try reflexivity.
  apply length_insert.
Qed.

Lemma append_zip_other ds : forall ess h l,
  l ∉ ds -> append_zip ds ess h !! l = h !! l.
Proof.
  induction ds as [| d ds IH]; intros ess h l Hl; simpl; [reflexivity |].
  destruct ess as [| es ess]; [reflexivity |].
  rewrite not_elem_of_cons in Hl. destruct Hl as [Hne Hl].
  rewrite IH by exact Hl. apply append_at_other. exact Hne.
Qed.

Lemma append_zip_member ds : forall ess h i d old,
  NoDup ds -> ds !! i = Some d -> h !! d = Some (OList old) ->
  append_zip ds ess h !! d
  = Some (OList (old ++ match ess !! i with Some es => es | None => [] end)).
Proof.
  induction ds as [| d0 ds IH]; intros ess h i d old Hnd Hi Hd; [discriminate |].
  apply NoDup_cons in Hnd as [Hd0 Hnd]. simpl.
  destruct ess as [| es ess].
  - rewrite lookup_nil, app_nil_r. exact Hd.
  - destruct i as [| i]; simpl in Hi.
    + inversion Hi; subst d0. rewrite append_zip_other by exact Hd0.
      apply append_at_same. exact Hd.
    + simpl. apply IH; [exact Hnd | exact Hi |].
      rewrite append_at_other; [exact Hd |].
      intros ->. apply Hd0. apply list_elem_of_lookup. eauto.
Qed.

Lemma seq_index_nat {A} (xs : list A) i :
  seq_index xs (Z.of_nat i)
  = match xs !! i with Some x => Ok x | None => Raise IndexError end.
Proof.
  unfold seq_index. cbv zeta.
  destruct (Z.of_nat i <? 0) eqn:E; [apply Z.ltb_lt in E; lia |].
  rewrite E, Nat2Z.id. reflexivity.
Qed.

(** Lines 106-107 for one entry whose dataset exists. *)
Lemma append_points_run pd dsv i d : forall points old h w,
  h !! pd = Some (OList dsv) ->
  dsv !! i = Some (VRef d) ->
  pd <> d ->
  h !! d = Some (OList old) ->
  for_each points (fun s =>
      dataset <- rd (py_getitem (VRef pd) (VInt (Z.of_nat i))) ;;
      list_append dataset s) (set_heap h w)
  = (Ok tt, set_heap (<[d := OList (old ++ points)]> h) w).
Proof.
  induction points as [| s points IH]; intros old h w Hpd Hi Hne Hd.
  - simpl. unfold ret. rewrite app_nil_r, list_insert_id by exact Hd. reflexivity.
  - simpl. unfold bind at 1. unfold bind at 1. unfold rd at 1. simpl heap.
    unfold py_getitem. rewrite Hpd. simpl index_of. cbv iota. rewrite seq_index_nat, Hi.
    unfold list_append, store. simpl heap. rewrite Hd.
    change (set_heap (<[d:=OList (old ++ [s])]> (heap (set_heap h w))) (set_heap h w))
      with (set_heap (<[d:=OList (old ++ [s])]> h) w).
    rewrite (IH (old ++ [s])).
    + rewrite insert_insert_same, <- app_assoc. reflexivity.
    + rewrite list_lookup_insert_ne by auto. exact Hpd.
    + exact Hi.
    + exact Hne.
    + eapply lookup_insert_same. exact Hd.
Qed.

(** Lines 106-107 for an entry without a dataset: nothing changes. *)
Lemma append_points_missing pd dsv i points h w :
  h !! pd = Some (OList dsv) ->
  dsv !! i = None ->
  exists r,
    for_each points (fun s =>
        dataset <- rd (py_getitem (VRef pd) (VInt (Z.of_nat i))) ;;
        list_append dataset s) (set_heap h w)
    = (r, set_heap h w).
Proof.
  intros Hpd Hi. destruct points as [| s points]; simpl.
  - eexists. reflexivity.
  - unfold bind at 1. unfold bind at 1. unfold rd at 1. simpl heap.
    unfold py_getitem. rewrite Hpd. simpl index_of. cbv iota. rewrite seq_index_nat, Hi.
    eexists. reflexivity.
Qed.

(** An entry of the normalised [extra_series]: a list object that is none of
    the datasets, holding the points [pts]. *)
Definition entry_holds (h : list object) (ds : list loc) (e : value) (pts : list value)
  : Prop :=
  exists l, e = VRef l /\ h !! l = Some (OList pts) /\ l ∉ ds.

Lemma merge_entries_run pd ds entries :
  forall ess i h w,
  h !! pd = Some (OList (map VRef ds)) ->
  pd ∉ ds ->
  (forall d, d ∈ ds -> exists old, h !! d = Some (OList old)) ->
  Forall2 (entry_holds h ds) entries ess ->
  exists r, merge_entries (VRef pd) i entries (set_heap h w)
            = (r, set_heap (append_zip (drop i ds) ess h) w).
Proof.
  induction entries as [| e entries IH];
    intros ess i h w Hpd Hnot Hlists Hall.
  - inversion Hall; subst. exists (Ok tt). destruct (drop i ds); reflexivity.
  - inversion Hall as [| e' pts entries' ess' He Hrest]; subst.
    destruct He as (l & -> & Hl & Hlds).
    unfold merge_entries. simpl for_enum. unfold bind at 1. unfold bind at 1.
    unfold rd at 1. simpl heap. unfold py_iter at 1. rewrite Hl.
    destruct (ds !! i) as [d |] eqn:Hi.
    + assert (Hdin : d ∈ ds) by (apply list_elem_of_lookup; eauto).
      destruct (Hlists d Hdin) as [old Hold].
      assert (Hne : pd <> d) by (intros ->; contradiction).
      rewrite (append_points_run pd (map VRef ds) i d pts old h w Hpd);
        [| rewrite list_lookup_fmap, Hi; reflexivity | exact Hne | exact Hold].
      rewrite (drop_S _ _ _ Hi). simpl append_zip.
      assert (Heq : <[d := OList (old ++ pts)]> h = append_at h d pts).
      { unfold append_at. rewrite Hold. reflexivity. }
      rewrite Heq.
      apply (IH ess' (S i) (append_at h d pts) w).
      * rewrite append_at_other by auto. exact Hpd.
      * exact Hnot.
      * intros d' Hd'. destruct (decide (d' = d)) as [-> | Hne'].
        -- eexists. apply append_at_same. exact Hold.
        -- rewrite append_at_other by exact Hne'. apply Hlists. exact Hd'.
      * eapply Forall2_impl; [exact Hrest |].
        intros e1 p1 (l1 & -> & Hl1 & Hl1ds). exists l1. split; [reflexivity |].
        split; [| exact Hl1ds].
        rewrite append_at_other; [exact Hl1 |]. intros ->. contradiction.
    + destruct (append_points_missing pd (map VRef ds) i pts h w Hpd) as [r Hr].
      { rewrite list_lookup_fmap, Hi. reflexivity. }
      rewrite Hr. rewrite (drop_ge ds i) by (apply lookup_ge_None; exact Hi).
      destruct r as [[] | ex].
      * destruct (IH ess' (S i) h w Hpd Hnot Hlists Hrest) as [r' Hr'].
        rewrite (drop_ge ds (S i)) in Hr'
          by (apply lookup_ge_None in Hi; lia).
        exists r'. simpl append_zip in *. exact Hr'.
      * exists (Raise ex). reflexivity.
Qed.

(** The three shapes of [extra_series] the specification names, each with
    the per-dataset entries it stands for: a single point; a flat sequence
    of points; a sequence of sequences. *)
Inductive extra_shape (h : list object) (ds : list loc) (given : value)
  : list (list value) -> Prop :=
| shape_single p f :
    given = VRef p -> h !! p = Some (ODict f) -> f <> [] ->
    extra_shape h ds given [[given]]
| shape_flat l first rest f :
    given = VRef l -> h !! l = Some (OList (first :: rest)) ->
    fields_of h first = Some f -> l ∉ ds ->
    extra_shape h ds given [first :: rest]
| shape_nested l entries ess :
    given = VRef l -> h !! l = Some (OList entries) -> entries <> [] ->
    Forall2 (entry_holds h ds) entries ess ->
    extra_shape h ds given ess.

Lemma try_except_state (m : M unit) w w' :
  try_except_Exception m w = (Ok tt, w') -> exists r, m w = (r, w').
Proof.
  unfold try_except_Exception. destruct (m w) as [[[] | e] w1]; intros H.
  - inversion H. eauto.
  - destruct (is_Exception e); inversion H. eauto.
Qed.

Lemma set_heap_id w : set_heap (heap w) w = w.
Proof. destruct w. reflexivity. Qed.

Lemma merge_extra_series_run pd pc ds cfg given ess w :
  heap w !! pd = Some (OList (map VRef ds)) ->
  pd ∉ ds ->
  (forall d, d ∈ ds -> exists old, heap w !! d = Some (OList old)) ->
  heap w !! pc = Some (ODict cfg) ->
  dict_get "extra_series" cfg = Some given ->
  extra_shape (heap w) ds given ess ->
  exists r extra,
    merge_extra_series (VRef pd) (VRef pc) w
    = (r, set_heap (append_zip ds ess (heap w ++ extra)) w).
Proof.
  intros Hpd Hnot Hlists Hpc Hgiven Hshape.
  assert (Hlt : forall d, d ∈ ds -> (d < length (heap w))%nat).
  { intros d Hd. destruct (Hlists d Hd) as [old Hold]. eapply lookup_lt_Some. exact Hold. }
  unfold merge_extra_series.
  erewrite bind_run by (unfold rd; rewrite (as_dict_at _ _ _ Hpc); reflexivity); cbv beta iota.
  unfold dict_get_default. rewrite Hgiven. cbv zeta.
  assert (Hrun : forall extra entries,
            Forall2 (entry_holds (heap w ++ extra) ds) entries ess ->
            exists r, merge_entries (VRef pd) 0 entries (set_heap (heap w ++ extra) w)
                      = (r, set_heap (append_zip ds ess (heap w ++ extra)) w)).
  { intros extra entries Hall.
    apply (merge_entries_run pd ds entries ess 0 (heap w ++ extra) w).
    - rewrite lookup_app_l by (eapply lookup_lt_Some; exact Hpd). exact Hpd.
    - exact Hnot.
    - intros d Hd. destruct (Hlists d Hd) as [old Hold]. exists old.
      rewrite lookup_app_l by (apply Hlt; exact Hd). exact Hold.
    - exact Hall. }
  destruct Hshape as [p f -> Hp Hf | l first rest f -> Hl Hfirst Hlds
                     | l entries ess -> Hl Hne Hall].
  - (* a single point *)
    destruct f as [| kv f]; [contradiction |].
    destruct (Hrun [OList [VRef p]; OList [VRef (length (heap w))]] [VRef (length (heap w))])
      as [r Hr].
    { constructor; [| constructor]. exists (length (heap w)). split; [reflexivity |]. split.
      - rewrite lookup_app_r by lia.
        replace (length (heap w) - length (heap w))%nat with 0%nat by lia. reflexivity.
      - intros Hin. apply Hlt in Hin. lia. }
    exists r, [OList [VRef p]; OList [VRef (length (heap w))]].
    rewrite (bind_run _ _ w true w) by (unfold rd, py_truthy; rewrite Hp; reflexivity); cbv beta iota.
    rewrite (bind_run _ _ w true w) by (unfold isinstance_dict; simpl; rewrite Hp; reflexivity); cbv beta iota.
    erewrite bind_run by (unfold bind, alloc; simpl; reflexivity); cbv beta iota.
    erewrite bind_run.
    2:{ unfold rd, py_iter. simpl heap.
        rewrite lookup_app_r by (rewrite length_app; simpl; lia).
        rewrite length_app. simpl length.
        replace (length (heap w) + 1 - (length (heap w) + 1))%nat with 0%nat by lia.
        reflexivity. }
    cbv beta iota.
    rewrite <- Hr. unfold set_heap. simpl. rewrite <- app_assoc. reflexivity.
  - (* a flat sequence of points *)
    unfold fields_of in Hfirst.
    destruct (obj_of (heap w) first) as [[vs | kvs] |] eqn:Efirst; try discriminate.
    destruct (Hrun [OList [VRef l]] [VRef l]) as [r Hr].
    { constructor; [| constructor]. exists l. split; [reflexivity |]. split; [| exact Hlds].
      rewrite lookup_app_l by (eapply lookup_lt_Some; exact Hl). exact Hl. }
    exists r, [OList [VRef l]].
    rewrite (bind_run _ _ w true w) by (unfold rd, py_truthy; rewrite Hl; reflexivity); cbv beta iota.
    rewrite (bind_run _ _ w false w) by (unfold isinstance_dict; simpl; rewrite Hl; reflexivity); cbv beta iota.
    erewrite bind_run.
    2:{ rewrite (bind_run _ _ w true w) by (unfold isinstance_list; simpl; rewrite Hl; reflexivity); cbv beta iota.
        erewrite bind_run.
        2:{ unfold rd, py_getitem. rewrite Hl. simpl index_of. cbv iota.
            change 0 with (Z.of_nat 0). rewrite seq_index_nat. reflexivity. }
        cbv beta iota.
        rewrite (bind_run _ _ w true w) by (unfold isinstance_dict; rewrite Efirst; reflexivity); cbv beta iota.
        unfold alloc. reflexivity. }
    cbv beta iota.
    erewrite bind_run.
    2:{ unfold rd, py_iter. simpl heap. rewrite lookup_app_r by lia.
        replace (length (heap w) - length (heap w))%nat with 0%nat by lia. reflexivity. }
    cbv beta iota.
    exact Hr.
  - (* a sequence of sequences *)
    destruct entries as [| e0 entries]; [contradiction |].
    inversion Hall as [| ? pts0 ? ess' (l0 & -> & Hl0 & Hl0ds) Hrest]; subst.
    destruct (Hrun [] (VRef l0 :: entries)) as [r Hr].
    { rewrite app_nil_r. exact Hall. }
    exists r, []. rewrite app_nil_r in *. rewrite set_heap_id in Hr.
    rewrite (bind_run _ _ w true w) by (unfold rd, py_truthy; rewrite Hl; reflexivity); cbv beta iota.
    rewrite (bind_run _ _ w false w) by (unfold isinstance_dict; simpl; rewrite Hl; reflexivity); cbv beta iota.
    erewrite bind_run.
    2:{ rewrite (bind_run _ _ w true w) by (unfold isinstance_list; simpl; rewrite Hl; reflexivity); cbv beta iota.
        erewrite bind_run.
        2:{ unfold rd, py_getitem. rewrite Hl. simpl index_of. cbv iota.
            change 0 with (Z.of_nat 0). rewrite seq_index_nat. reflexivity. }
        cbv beta iota.
        rewrite (bind_run _ _ w false w) by (unfold isinstance_dict; simpl; rewrite Hl0; reflexivity); cbv beta iota.
        reflexivity. }
    cbv beta iota.
    erewrite bind_run by (unfold rd, py_iter; rewrite Hl; reflexivity); cbv beta iota.
    exact Hr.
Qed.

(** Whatever shape [extra_series] has, lines 97-109 never raise. *)
Theorem add_extra_series_never_raises (plotdata pconfig : value) (w : world) :
  exists w', add_extra_series plotdata pconfig w = (Ok tt, w').
Proof. apply add_extra_series_total. Qed.

(** For the three shapes of [extra_series] that the code recognises, entry
    [i] is appended, as it is, to the end of dataset [i] when that dataset
    exists; every other object that existed before (the appended points
    among them) is left as it was, and so is the [report] module. *)
Theorem extra_series_appended_verbatim
    (pd pc : loc) (ds : list loc) (cfg : dict) (given : value)
    (ess : list (list value)) (w : world) :
  heap w !! pd = Some (OList (map VRef ds)) ->
  pd ∉ ds ->
  NoDup ds ->
  (forall d, d ∈ ds -> exists old, heap w !! d = Some (OList old)) ->
  heap w !! pc = Some (ODict cfg) ->
  dict_get "extra_series" cfg = Some given ->
  extra_shape (heap w) ds given ess ->
  exists w',
    add_extra_series (VRef pd) (VRef pc) w = (Ok tt, w') /\
    (forall i d old,
       ds !! i = Some d -> heap w !! d = Some (OList old) ->
       heap w' !! d = Some (OList (old ++ default [] (ess !! i)))) /\
    (forall l o, heap w !! l = Some o -> l ∉ ds -> heap w' !! l = Some o) /\
    plot_data w' = plot_data w /\ num_hc_plots w' = num_hc_plots w /\
    html_ids w' = html_ids w.
Proof.
  intros Hpd Hnot Hnd Hlists Hpc Hgiven Hshape.
  destruct (add_extra_series_total (VRef pd) (VRef pc) w) as [w' Hrun].
  exists w'. split; [exact Hrun |].
  unfold add_extra_series in Hrun. apply try_except_state in Hrun as [r Hr].
  destruct (merge_extra_series_run pd pc ds cfg given ess w Hpd Hnot Hlists Hpc Hgiven Hshape)
    as (r' & extra & Hr').
  rewrite Hr' in Hr. inversion Hr; subst w'; clear Hr. simpl.
  split; [| split; [| auto]].
  - intros i d old Hi Hd.
    rewrite (append_zip_member ds ess (heap w ++ extra) i d old Hnd Hi).
    + destruct (ess !! i); reflexivity.
    + rewrite lookup_app_l by (eapply lookup_lt_Some; exact Hd). exact Hd.
  - intros l o Hl Hlds. rewrite append_zip_other by exact Hlds.
    rewrite lookup_app_l by (eapply lookup_lt_Some; exact Hl). exact Hl.
Qed.

(** Two datasets, and [{"extra_series": {"x": 0, "y": 0, "name": "origin"}}]. *)
Definition origin_store : list object :=
  [ ODict [("x", VInt 1); ("y", VInt 2)];
    OList [VRef 0];
    OList [];
    OList [VRef 1; VRef 2];
    ODict [("x", VInt 0); ("y", VInt 0); ("name", VStr "origin")];
    ODict [("extra_series", VRef 4)] ].

Lemma extra_series_appended_witness :
  exists w',
    add_extra_series (VRef 3) (VRef 5) (fresh_world origin_store) = (Ok tt, w') /\
    (forall i d old,
       [1%nat; 2%nat] !! i = Some d -> origin_store !! d = Some (OList old) ->
       heap w' !! d = Some (OList (old ++ default [] ([[VRef 4]] !! i)))) /\
    (forall l o, origin_store !! l = Some o -> l ∉ [1%nat; 2%nat] -> heap w' !! l = Some o) /\
    plot_data w' = [] /\ num_hc_plots w' = 0 /\ html_ids w' = [].
Proof.
  refine (extra_series_appended_verbatim 3%nat 5%nat [1%nat; 2%nat]
            [("extra_series", VRef 4)] (VRef 4) [[VRef 4]] (fresh_world origin_store)
            eq_refl _ _ _ eq_refl eq_refl _).
  - apply (bool_decide_unpack _). exact I.
  - apply (bool_decide_unpack _). exact I.
  - intros d Hd. apply elem_of_cons in Hd as [-> | Hd];
      [| apply elem_of_cons in Hd as [-> | Hd]; [| inversion Hd]]; eexists; reflexivity.
  - eapply shape_single; [reflexivity | reflexivity | discriminate].
Defined.

(** ** User overrides (lines 35-38) and per-dataset overrides (lines 50-54) *)

Definition keys_of (d : dict) : list string := map fst d.

(** After [d.update(d2)], a key of [d2] has the value [d2] gives it and any
    other key keeps the value it had. *)
Lemma dict_update_get k d2 : forall d,
  NoDup (keys_of d2) ->
  dict_get k (dict_update d d2)
  = match dict_get k d2 with Some v => Some v | None => dict_get k d end.
Proof.
  induction d2 as [| [k0 v0] d2 IH]; intros d Hnd; [reflexivity |].
  unfold keys_of in Hnd. simpl in Hnd. apply NoDup_cons in Hnd as [Hk0 Hnd].
  unfold dict_update. simpl fold_left. fold (dict_update (dict_set k0 v0 d) d2).
  rewrite IH by exact Hnd. simpl dict_get.
  destruct (String.eqb k k0) eqn:Ek.
  - apply String.eqb_eq in Ek. subst k0.
    assert (Hnone : dict_get k d2 = None).
    { clear IH Hnd. induction d2 as [| [k1 v1] d2 IH]; [reflexivity |].
      simpl in *. apply not_elem_of_cons in Hk0 as [Hne Hk0].
      destruct (String.eqb k k1) eqn:Ek1; [apply String.eqb_eq in Ek1; congruence |].
      apply IH. exact Hk0. }
    rewrite Hnone. apply dict_get_set_eq.
  - destruct (dict_get k d2); [reflexivity |].
    apply dict_get_set_ne. intros ->. rewrite String.eqb_refl in Ek. discriminate.
Qed.

Lemma for_each_setitem pc : forall (ov : dict) d h w,
  h !! pc = Some (ODict d) ->
  for_each ov (fun kv => py_setitem (VRef pc) (VStr (fst kv)) (snd kv)) (set_heap h w)
  = (Ok tt, set_heap (<[pc := ODict (dict_update d ov)]> h) w).
Proof.
  induction ov as [| [k v] ov IH]; intros d h w Hpc.
  - simpl. unfold ret. rewrite list_insert_id by exact Hpc. reflexivity.
  - simpl for_each. erewrite bind_run.
    2:{ apply py_setitem_dict. exact Hpc. }
    simpl heap.
    change (set_heap (<[pc:=ODict (dict_set k v d)]> h) (set_heap h w))
      with (set_heap (<[pc:=ODict (dict_set k v d)]> h) w).
    rewrite (IH (dict_set k v d)) by (eapply lookup_insert_same; exact Hpc).
    rewrite insert_insert_same. reflexivity.
Qed.

(** The overrides [config.custom_plot_config] holds for this plot: those
    filed under its [id], when the id is a non-empty string. *)
Definition overrides_for (E : env) (cfg : dict) : dict :=
  match dict_get "id" cfg with
  | Some (VStr s) =>
      if String.eqb s "" then []
      else match table_get s (custom_plot_config E) with
           | Some ov => ov
           | None => []
           end
  | _ => []
  end.

(** Lines 35-38.  When the plot id is not a list or dict, the call succeeds;
    afterwards every key the user overrides has the user's value, every
    other key of the configuration has the value the caller gave, and no
    other object has changed. *)
Theorem custom_plot_config_takes_precedence
    (E : env) (pc : loc) (cfg : dict) (w : world) :
  heap w !! pc = Some (ODict cfg) ->
  (forall l, dict_get "id" cfg <> Some (VRef l)) ->
  NoDup (keys_of (overrides_for E cfg)) ->
  exists cfg',
    apply_custom_plot_config E (VRef pc) w
      = (Ok tt, set_heap (<[pc := ODict cfg']> (heap w)) w) /\
    forall k,
      dict_get k cfg'
      = match dict_get k (overrides_for E cfg) with
        | Some v => Some v
        | None => dict_get k cfg
        end.
Proof.
  intros Hpc Hid Hnd.
  exists (dict_update cfg (overrides_for E cfg)). split.
  2:{ intros k. apply dict_update_get. exact Hnd. }
  assert (Hsame : forall r : unit, (Ok r, w)
            = (Ok tt, set_heap (<[pc := ODict (dict_update cfg [])]> (heap w)) w)).
  { intros []. unfold dict_update. simpl. rewrite list_insert_id by exact Hpc.
    rewrite set_heap_id. reflexivity. }
  unfold apply_custom_plot_config, overrides_for in *.
  rewrite (bind_run _ _ w cfg w) by (unfold rd; rewrite (as_dict_at _ _ _ Hpc); reflexivity).
  destruct (dict_get "id" cfg) as [id |] eqn:Eid; [| apply Hsame].
  unfold bind, rd. simpl.
  destruct id as [| b | z | q | s | l]; simpl.
  - apply Hsame.
  - destruct b; apply Hsame.
  - destruct (negb (z =? 0)); apply Hsame.
  - destruct q; apply Hsame.
  - destruct (String.eqb s "") eqn:Es; simpl; [apply Hsame |].
    destruct (table_get s (custom_plot_config E)) as [ov |]; [| apply Hsame].
    rewrite <- (set_heap_id w) at 1. apply for_each_setitem. exact Hpc.
  - exfalso. apply (Hid l). reflexivity.
Qed.

(** [plot(data, {"id": "p", "title": "mine"})] with the user's
    [{"p": {"title": "theirs", "ymax": 3}}]. *)
Definition override_env : env :=
  Env [("p", [("title", VStr "theirs"); ("ymax", VInt 3)])] false NoScatter
      demo_save_htmlid "abcdefghij" (fun _ => None) (fun _ => "<float>")
      (fun _ _ => "<object>").

Definition override_store : list object :=
  [ ODict [("id", VStr "p"); ("title", VStr "mine")] ].

Lemma custom_plot_config_witness :
  exists cfg',
    apply_custom_plot_config override_env (VRef 0) (fresh_world override_store)
      = (Ok tt, set_heap (<[0%nat := ODict cfg']> override_store)
                  (fresh_world override_store)) /\
    forall k,
      dict_get k cfg'
      = match dict_get k [("title", VStr "theirs"); ("ymax", VInt 3)] with
        | Some v => Some v
        | None => dict_get k [("id", VStr "p"); ("title", VStr "mine")]
        end.
Proof.
  refine (custom_plot_config_takes_precedence override_env 0%nat
            [("id", VStr "p"); ("title", VStr "mine")] (fresh_world override_store)
            eq_refl _ _).
  - intros l H. discriminate H.
  - apply (bool_decide_unpack _). exact I.
Defined.

(** Lines 50-54.  With a [data_labels] list that has an entry for dataset
    [i]: when the entry is a dict, the configuration in force for the
    dataset gives every key of the entry the entry's value and every other
    key the plot-wide value; when the entry is a bare label, it is the
    plot-wide configuration. *)
Theorem series_config_label_overrides
    (pc dls : loc) (cfg : dict) (labels : list value) (i : nat) (dl : value)
    (h : list object) :
  h !! pc = Some (ODict cfg) ->
  dict_get "data_labels" cfg = Some (VRef dls) ->
  h !! dls = Some (OList labels) ->
  labels !! i = Some dl ->
  (forall ov, fields_of h dl = Some ov -> NoDup (keys_of ov) ->
     exists sc, series_config (VRef pc) i h = Ok sc /\
       forall k, dict_get k sc
                 = match dict_get k ov with Some v => Some v | None => dict_get k cfg end) /\
  (fields_of h dl = None -> series_config (VRef pc) i h = Ok cfg).
Proof.
  intros Hpc Hdls Hlist Hi.
  assert (Hget : py_getitem (VRef dls) (VInt (Z.of_nat i)) h = Ok dl).
  { unfold py_getitem. rewrite Hlist. simpl. rewrite seq_index_nat, Hi. reflexivity. }
  unfold series_config. rewrite (as_dict_at _ _ _ Hpc). simpl. rewrite Hdls, Hget. simpl.
  unfold fields_of. split.
  - intros ov Hov Hnd. destruct (obj_of h dl) as [[vs | kvs] |]; try discriminate.
    inversion Hov; subst kvs. eexists. split; [reflexivity |].
    intros k. apply dict_update_get. exact Hnd.
  - intros Hnone. destruct (obj_of h dl) as [[vs | kvs] |]; try reflexivity. discriminate.
Qed.

(** [{"xmax": 10, "ymax": 10, "data_labels": [{"name": "A", "ymax": 5}, "B"]}] *)
Definition label_override_store : list object :=
  [ ODict [("name", VStr "A"); ("ymax", VInt 5)];
    OList [VRef 0; VStr "B"];
    ODict [("xmax", VInt 10); ("ymax", VInt 10); ("data_labels", VRef 1)] ].

Lemma series_config_label_witness :
  exists sc, series_config (VRef 2) 0 label_override_store = Ok sc /\
    forall k, dict_get k sc
              = match dict_get k [("name", VStr "A"); ("ymax", VInt 5)] with
                | Some v => Some v
                | None => dict_get k [("xmax", VInt 10); ("ymax", VInt 10);
                                      ("data_labels", VRef 1)]
                end.
Proof.
  refine (proj1 (series_config_label_overrides 2%nat 1%nat _ _ 0%nat (VRef 0)
                   label_override_store eq_refl eq_refl eq_refl eq_refl)
            [("name", VStr "A"); ("ymax", VInt 5)] eq_refl _).
  apply (bool_decide_unpack _). exact I.
Defined.

(** ** Identifier, counter and registry (lines 132-137, 175, 181) *)

Lemma table_get_set_ne {A} id id' (a : A) t :
  id' <> id -> table_get id' (table_set id a t) = table_get id' t.
Proof.
  intros Hne. induction t as [| [k0 a0] t IH]; simpl.
  - destruct (String.eqb id' id) eqn:Ek; [| reflexivity].
    apply String.eqb_eq in Ek. congruence.
  - destruct (String.eqb id k0) eqn:Ek; simpl.
    + apply String.eqb_eq in Ek. subst k0.
      destruct (String.eqb id' id) eqn:Ek'; [| reflexivity].
      apply String.eqb_eq in Ek'. congruence.
    + destruct (String.eqb id' k0); [reflexivity | exact IH].
Qed.

(** Reversing touches list objects only. *)
Lemma reverse_datasets_keeps n : forall i pd w r w',
  reverse_datasets n i pd w = (r, w') ->
  plot_data w' = plot_data w /\ num_hc_plots w' = num_hc_plots w /\
  html_ids w' = html_ids w /\
  forall l kvs, heap w !! l = Some (ODict kvs) -> heap w' !! l = Some (ODict kvs).
Proof.
  induction n as [| n IH]; intros i pd w r w' Hrun; simpl in Hrun.
  - inversion Hrun; subst. auto.
  - unfold bind at 1 in Hrun. unfold rd at 1 in Hrun.
    destruct (py_iter pd (heap w)) as [items | e]; [| inversion Hrun; subst; auto].
    destruct (items !! i) as [d |]; [| inversion Hrun; subst; auto].
    unfold bind in Hrun.
    destruct (list_reverse d w) as [[[] | e] w1] eqn:Erev.
    + apply IH in Hrun as (Hp & Hn & Hi & Hd).
      unfold list_reverse, store in Erev.
      destruct d; try discriminate.
      destruct (heap w !! l) as [[vs | kvs0] |] eqn:El; try discriminate.
      inversion Erev; subst w1; clear Erev. simpl in *.
      repeat split; try assumption.
      intros l' kvs Hl'. apply Hd. rewrite list_lookup_insert_ne; [exact Hl' |].
      intros ->. rewrite El in Hl'. discriminate.
    + inversion Hrun; subst.
      unfold list_reverse, store in Erev.
      destruct d; try (inversion Erev; subst; auto).
      destruct (heap w !! l) as [[vs | kvs0] |]; inversion Erev; subst; auto.
Qed.

(** When [highcharts_scatter_plot] returns: the identifier it used is the one
    [report.save_htmlid] gave back for the caller's [id] (or for a generated
    one); the configuration dict carries it under ["id"] and is otherwise as
    the caller left it; the payload is registered under it; no other entry
    of [report.plot_data] changes; and the plot counter grows by one. *)
Theorem highcharts_registers_under_saved_id
    (E : env) (plotdata : value) (pc : loc) (cfg : dict)
    (w w' : world) (out : value) :
  heap w !! pc = Some (ODict cfg) ->
  highcharts_scatter_plot E plotdata (VRef pc) w = (Ok out, w') ->
  exists id cfg',
    save_htmlid E (id_candidate E cfg) (html_ids w) = (Ok id, html_ids w') /\
    heap w' !! pc = Some (ODict cfg') /\
    dict_get "id" cfg' = Some (VStr id) /\
    (forall k, k <> "id" -> dict_get k cfg' = dict_get k cfg) /\
    registered w' id
      = Some [("plot_type", VStr "scatter"); ("datasets", plotdata);
              ("config", VRef pc)] /\
    (forall id', id' <> id -> table_get id' (plot_data w') = table_get id' (plot_data w)) /\
    num_hc_plots w' = num_hc_plots w + 1.
Proof.
  intros Hpc Hrun.
  destruct (highcharts_inv _ _ _ _ _ _ _ Hpc Hrun)
    as (id0 & id & ids' & sw & ct & n & w3 & Hid0 & Hsave & _ & _ & _ & _ & Hrev & Hw').
  rewrite with_default_id_candidate in Hid0. inversion Hid0; subst id0; clear Hid0.
  apply reverse_datasets_keeps in Hrev as (Hp & Hn & Hi & Hd). simpl in *.
  set (cfg' := dict_set "id" (VStr id) (with_default_id E cfg)) in *.
  assert (Hpc3 : heap w3 !! pc = Some (ODict cfg')).
  { apply Hd. eapply lookup_insert_same. exact Hpc. }
  exists id, cfg'. subst w'. simpl.
  split; [rewrite Hi; exact Hsave |].
  split; [rewrite lookup_app_l by (eapply lookup_lt_Some; exact Hpc3); exact Hpc3 |].
  split; [apply dict_get_set_eq |].
  split.
  { intros k Hk. unfold cfg'. rewrite dict_get_set_ne by auto.
    unfold with_default_id. destruct (dict_get_default "id" cfg VNone); try reflexivity.
    apply dict_get_set_ne. auto. }
  split.
  { unfold registered. simpl. rewrite table_get_set. unfold fields_of, obj_of.
    rewrite lookup_app_r by lia.
    replace (length (heap w3) - length (heap w3))%nat with 0%nat by lia. reflexivity. }
  split.
  { intros id' Hne. rewrite table_get_set_ne by exact Hne. rewrite Hp. reflexivity. }
  exact Hn.
Qed.

Lemma highcharts_registers_witness :
  exists id cfg',
    demo_save_htmlid (id_candidate (demo_env false NoScatter) []) []
      = (Ok id, html_ids (snd (highcharts_scatter_plot (demo_env false NoScatter)
                                 (VRef 5) (VRef 6) (fresh_world three_point_store)))) /\
    heap (snd (highcharts_scatter_plot (demo_env false NoScatter)
                 (VRef 5) (VRef 6) (fresh_world three_point_store))) !! 6%nat
      = Some (ODict cfg') /\
    dict_get "id" cfg' = Some (VStr id) /\
    (forall k, k <> "id" -> dict_get k cfg' = dict_get k []) /\
    registered (snd (highcharts_scatter_plot (demo_env false NoScatter)
                       (VRef 5) (VRef 6) (fresh_world three_point_store))) id
      = Some [("plot_type", VStr "scatter"); ("datasets", VRef 5); ("config", VRef 6)] /\
    (forall id', id' <> id ->
       table_get id' (plot_data (snd (highcharts_scatter_plot (demo_env false NoScatter)
                                        (VRef 5) (VRef 6) (fresh_world three_point_store))))
       = table_get id' []) /\
    num_hc_plots (snd (highcharts_scatter_plot (demo_env false NoScatter)
                         (VRef 5) (VRef 6) (fresh_world three_point_store))) = 0 + 1.
Proof.
  exact (highcharts_registers_under_saved_id (demo_env false NoScatter) (VRef 5) 6%nat []
           (fresh_world three_point_store) _ _ eq_refl (surjective_pairing _)).
Defined.

(** When [report.save_htmlid] raises, [highcharts_scatter_plot] raises the
    same exception: nothing is registered and the plot counter stays, but an
    identifier generated for a configuration without one has already been
    written into the caller's dict. *)
Theorem save_htmlid_failure_registers_nothing
    (E : env) (plotdata : value) (pc : loc) (cfg : dict) (w : world)
    (e : exn) (ids' : list string) :
  heap w !! pc = Some (ODict cfg) ->
  save_htmlid E (id_candidate E cfg) (html_ids w) = (Raise e, ids') ->
  highcharts_scatter_plot E plotdata (VRef pc) w
  = (Raise e, World (<[pc := ODict (with_default_id E cfg)]> (heap w))
                    (plot_data w) (num_hc_plots w) ids').
Proof.
  intros Hpc Hsave. unfold highcharts_scatter_plot.
  rewrite (bind_run _ _ w (VRef pc) w) by reflexivity.
  rewrite (bind_run _ _ w cfg w)
    by (unfold rd; rewrite (as_dict_at _ _ _ Hpc); reflexivity).
  rewrite (bind_run _ _ w tt (set_heap (<[pc := ODict (with_default_id E cfg)]> (heap w)) w)).
  2:{ unfold with_default_id.
      destruct (dict_get_default "id" cfg VNone) eqn:Eid;
        try (unfold ret; rewrite list_insert_id by exact Hpc; rewrite set_heap_id;
             reflexivity).
      apply py_setitem_dict. exact Hpc. }
  rewrite (bind_run _ _ _ (id_candidate E cfg)
             (set_heap (<[pc := ODict (with_default_id E cfg)]> (heap w)) w)).
  2:{ unfold rd, py_getitem. simpl heap.
      rewrite (lookup_insert_same _ _ _ _ Hpc), with_default_id_candidate. reflexivity. }
  apply bind_raise. unfold call_save_htmlid. simpl. rewrite Hsave. reflexivity.
Qed.

(** An environment whose [save_htmlid] rejects every identifier. *)
Definition rejecting_env : env :=
  Env [] false NoScatter (fun _ ids => (Raise ValueError, ids)) "abcdefghij"
      (fun _ => None) (fun _ => "<float>") (fun _ _ => "<object>").

Lemma save_htmlid_failure_witness :
  highcharts_scatter_plot rejecting_env (VRef 5) (VRef 6) (fresh_world three_point_store)
  = (Raise ValueError,
     World (<[6%nat := ODict (with_default_id rejecting_env [])]> three_point_store)
           [] 0 []).
Proof.
  exact (save_htmlid_failure_registers_nothing rejecting_env (VRef 5) 6%nat []
           (fresh_world three_point_store) ValueError [] eq_refl eq_refl).
Defined.

(** ** The range filter (lines 59-68) *)

(** [a <= b] and [a < b] on exact values, for numbers: neither holds of a
    NaN. *)
Definition xle (a b : xnum) : Prop :=
  match a, b with
  | XNaN, _ | _, XNaN => False
  | XInf true, _ => True
  | _, XInf false => True
  | XInf false, _ => False
  | _, XInf true => False
  | XFin x, XFin y => (x <= y)%Q
  end.

Definition xlt (a b : xnum) : Prop :=
  match a, b with
  | XNaN, _ | _, XNaN => False
  | XInf false, _ => False
  | _, XInf true => False
  | XInf true, _ => True
  | _, XInf false => True
  | XFin x, XFin y => (x < y)%Q
  end.

Lemma Qgt_b_false x m : Qgt_b x m = false -> (x <= m)%Q.
Proof.
  unfold Qgt_b. intros H. apply Qle_bool_iff.
  destruct (Qle_bool x m); [reflexivity | discriminate].
Qed.

Lemma Qgt_b_true x m : Qgt_b x m = true -> (m < x)%Q.
Proof.
  unfold Qgt_b. intros H. apply Qnot_le_lt. intros Hle.
  apply Qle_bool_iff in Hle. rewrite Hle in H. discriminate.
Qed.

Lemma xgt_false a b : xgt a b = false -> a = XNaN \/ b = XNaN \/ xle a b.
Proof.
  destruct a as [| [] | x], b as [| [] | y]; simpl; intros H;
    auto; try discriminate.
  right; right. apply Qgt_b_false. exact H.
Qed.

Lemma xgt_true a b : xgt a b = true -> xlt b a.
Proof.
  destruct a as [| [] | x], b as [| [] | y]; simpl; intros H;
    auto; try discriminate.
  apply Qgt_b_true. exact H.
Qed.

(** [x > m] is false of the doubles [x] and [m]: one of them is a NaN, or
    [x <= m]. *)
Definition not_above (x m : spec_float) : Prop :=
  xnum_of_float x = XNaN \/ xnum_of_float m = XNaN \/
  xle (xnum_of_float x) (xnum_of_float m).

(** Coordinate [c] passes the bounds [cfg] sets under [kmax] and [kmin]:
    [float] converts the coordinate and the bound, and the coordinate is
    neither above the maximum nor below the minimum. *)
Definition within (E : env) (cfg : dict) (kmax kmin : string) (c : value) : Prop :=
  (forall vmax, dict_get kmax cfg = Some vmax ->
     exists x m, to_float E c = Ok x /\ to_float E vmax = Ok m /\ not_above x m) /\
  (forall vmin, dict_get kmin cfg = Some vmin ->
     exists x m, to_float E c = Ok x /\ to_float E vmin = Ok m /\ not_above m x).

Lemma float_gt_false x m : float_gt x m = false -> not_above x m.
Proof. apply xgt_false. Qed.

Lemma float_lt_false x m : float_lt x m = false -> not_above m x.
Proof. apply xgt_false. Qed.

Lemma beyond_unfold E cfg kmax kmin c :
  c <> VNone ->
  beyond E cfg kmax kmin c
  = (over <~ match dict_get kmax cfg with
             | Some vmax => x <~ to_float E c ;; m <~ to_float E vmax ;;
                            Ok (float_gt x m)
             | None => Ok false
             end ;;
     if over : bool then Ok true
     else match dict_get kmin cfg with
          | Some vmin => x <~ to_float E c ;; m <~ to_float E vmin ;;
                         Ok (float_lt x m)
          | None => Ok false
          end).
Proof. intros Hc. destruct c; try reflexivity. contradiction. Qed.

Lemma beyond_false E cfg kmax kmin c :
  beyond E cfg kmax kmin c = Ok false -> c = VNone \/ within E cfg kmax kmin c.
Proof.
  intros H.
  assert (Hdec : c = VNone \/ c <> VNone) by (destruct c; auto; right; discriminate).
  destruct Hdec as [-> | Hc]; [left; reflexivity | right].
  rewrite (beyond_unfold _ _ _ _ _ Hc) in H.
  apply rbind_Ok in H as (over & Hover & Hrest).
  destruct over; [discriminate |]. split.
  - intros vmax Hmax. rewrite Hmax in Hover.
    apply rbind_Ok in Hover as (x & Hx & Hover).
    apply rbind_Ok in Hover as (m & Hm & Hover). inversion Hover as [Hgt].
    exists x, m. repeat split; try assumption. apply float_gt_false. exact Hgt.
  - intros vmin Hmin. rewrite Hmin in Hrest.
    apply rbind_Ok in Hrest as (x & Hx & Hrest).
    apply rbind_Ok in Hrest as (m & Hm & Hrest). inversion Hrest as [Hlt].
    exists x, m. repeat split; try assumption. apply float_lt_false. exact Hlt.
Qed.

(** Lines 59-68.  A point the filter keeps has an [x] and a [y], and each of
    them is [None] or passes the bounds in force: [float] converts it and
    every bound set for its axis, and the double it gives is not above the
    maximum and not below the minimum, where a NaN on either side of a
    comparison excludes nothing.  A [None] coordinate is never the reason a
    point is dropped. *)
Theorem kept_point_is_within_bounds
    (E : env) (cfg : dict) (point : value) (h : list object) :
  skip_point E cfg point h = Ok false ->
  (exists x y,
     py_getitem point (VStr "x") h = Ok x /\
     py_getitem point (VStr "y") h = Ok y /\
     (x = VNone \/ within E cfg "xmax" "xmin" x) /\
     (y = VNone \/ within E cfg "ymax" "ymin" y)) /\
  beyond E cfg "xmax" "xmin" VNone = Ok false /\
  beyond E cfg "ymax" "ymin" VNone = Ok false.
Proof.
  intros H. split; [| split; reflexivity].
  unfold skip_point in H.
  apply rbind_Ok in H as (x & Hx & H).
  apply rbind_Ok in H as (bx & Hbx & H).
  destruct bx; [discriminate |].
  apply rbind_Ok in H as (y & Hy & Hby).
  exists x, y. repeat split; try assumption.
  - apply beyond_false. exact Hbx.
  - apply beyond_false. exact Hby.
Qed.

(** [{"x": 3, "y": None}] under [{"xmax": 4, "ymin": 1}]. *)
Definition bounded_store : list object :=
  [ ODict [("x", VInt 3); ("y", VNone)] ].

Lemma kept_point_witness :
  (exists x y,
     py_getitem (VRef 0) (VStr "x") bounded_store = Ok x /\
     py_getitem (VRef 0) (VStr "y") bounded_store = Ok y /\
     (x = VNone \/ within (demo_env false NoScatter)
                     [("xmax", VInt 4); ("ymin", VInt 1)] "xmax" "xmin" x) /\
     (y = VNone \/ within (demo_env false NoScatter)
                     [("xmax", VInt 4); ("ymin", VInt 1)] "ymax" "ymin" y)) /\
  beyond (demo_env false NoScatter) [("xmax", VInt 4); ("ymin", VInt 1)]
    "xmax" "xmin" VNone = Ok false /\
  beyond (demo_env false NoScatter) [("xmax", VInt 4); ("ymin", VInt 1)]
    "ymax" "ymin" VNone = Ok false.
Proof.
  exact (kept_point_is_within_bounds (demo_env false NoScatter)
           [("xmax", VInt 4); ("ymin", VInt 1)] (VRef 0) bounded_store eq_refl).
Defined.

(** The conversions and comparisons of the filter on inputs at the edge of
    the doubles: [2**53 + 1] rounds to [2**53], so it is not above a maximum
    of [2**53]; [10**400] has no double; a NaN coordinate is above no
    maximum and below no minimum. *)
Example float_of_int_rounds_to_even :
  float_of_int (2 ^ 53 + 1) = float_of_int (2 ^ 53) /\
  beyond (demo_env false NoScatter) [("xmax", VInt (2 ^ 53))] "xmax" "xmin"
    (VInt (2 ^ 53 + 1)) = Ok false.
Proof. split; vm_compute; reflexivity. Qed.

Example float_of_int_overflows :
  float_of_int (10 ^ 400) = Raise OverflowError /\
  beyond (demo_env false NoScatter) [("xmax", VInt 5)] "xmax" "xmin"
    (VInt (10 ^ 400)) = Raise OverflowError.
Proof. split; vm_compute; reflexivity. Qed.

Example nan_coordinate_is_kept :
  beyond (demo_env false NoScatter) [("xmax", VInt 5); ("xmin", VInt 1)] "xmax" "xmin"
    (VFloat S754_nan) = Ok false.
Proof. vm_compute. reflexivity. Qed.

(** ** Naming and decoration (lines 69-81) *)

(** What a configured decoration value gives the points of sample [s]: the
    sample's entry when the value is a dict that has one, else the value. *)
Definition pick (h : list object) (s : string) (v : value) : value :=
  match fields_of h v with
  | Some table => match dict_get s table with Some x => x | None => v end
  | None => v
  end.

(** The fields of a point after lines 75-80 for the key [k]. *)
Definition decorated_key (h : list object) (cfg : dict) (s k : string) (f : dict) : dict :=
  if dict_mem k f then f
  else match dict_get k cfg with
       | None => f
       | Some v => dict_set k (pick h s v) f
       end.

(** ... and after the loop over the keys [ks], for the point at [p]. *)
Fixpoint decorated (h : list object) (p : loc) (cfg : dict) (s : string)
    (ks : list string) (f : dict) : dict :=
  match ks with
  | [] => f
  | k :: ks' =>
      decorated h p cfg s ks' (decorated_key (<[p := ODict f]> h) cfg s k f)
  end.

Lemma py_setitem_dict_at l kvs k v h w :
  h !! l = Some (ODict kvs) ->
  py_setitem (VRef l) (VStr k) v (set_heap h w)
  = (Ok tt, set_heap (<[l := ODict (dict_set k v kvs)]> h) w).
Proof. intros H. exact (py_setitem_dict l kvs k v (set_heap h w) H). Qed.

Lemma decorated_insert cfg s p f0 : forall ks h f1,
  decorated (<[p := ODict f0]> h) p cfg s ks f1 = decorated h p cfg s ks f1.
Proof.
  induction ks as [| k ks IH]; intros h f1; [reflexivity |].
  simpl. rewrite insert_insert_same. apply IH.
Qed.

Lemma decorate_run cfg s p k f h w :
  h !! p = Some (ODict f) ->
  decorate cfg (VStr s) (VRef p) k (set_heap h w)
  = (Ok tt, set_heap (<[p := ODict (decorated_key h cfg s k f)]> h) w).
Proof.
  intros Hp.
  assert (Hsame : (Ok tt, set_heap h w) = (Ok tt, set_heap (<[p := ODict f]> h) w)).
  { rewrite list_insert_id by exact Hp. reflexivity. }
  unfold decorate, decorated_key.
  rewrite (bind_run _ _ _ f (set_heap h w))
    by (unfold rd; simpl heap; rewrite (as_dict_at _ _ _ Hp); reflexivity).
  destruct (dict_mem k f); [exact Hsame |].
  destruct (dict_get k cfg) as [v |]; [| exact Hsame].
  unfold pick, fields_of.
  destruct (obj_of h v) as [[vs | table] |] eqn:Ev.
  - rewrite (bind_run _ _ _ false (set_heap h w))
      by (unfold isinstance_dict; simpl heap; rewrite Ev; reflexivity).
    rewrite (bind_run _ _ _ false (set_heap h w)) by reflexivity.
    apply py_setitem_dict_at. exact Hp.
  - rewrite (bind_run _ _ _ true (set_heap h w))
      by (unfold isinstance_dict; simpl heap; rewrite Ev; reflexivity).
    rewrite (bind_run _ _ _ (dict_mem s table) (set_heap h w))
      by (unfold rd, py_in_dict, as_dict; simpl heap; rewrite Ev; reflexivity).
    unfold dict_mem. destruct (dict_get s table) as [x |] eqn:Es.
    + rewrite (bind_run _ _ _ x (set_heap h w)).
      * apply py_setitem_dict_at. exact Hp.
      * unfold rd, py_getitem. simpl heap. destruct v; try discriminate.
        simpl in Ev. rewrite Ev, Es. reflexivity.
    + apply py_setitem_dict_at. exact Hp.
  - rewrite (bind_run _ _ _ false (set_heap h w))
      by (unfold isinstance_dict; simpl heap; rewrite Ev; reflexivity).
    rewrite (bind_run _ _ _ false (set_heap h w)) by reflexivity.
    apply py_setitem_dict_at. exact Hp.
Qed.

Lemma decorate_all_run cfg s p : forall ks f h w,
  h !! p = Some (ODict f) ->
  for_each ks (decorate cfg (VStr s) (VRef p)) (set_heap h w)
  = (Ok tt, set_heap (<[p := ODict (decorated h p cfg s ks f)]> h) w).
Proof.
  induction ks as [| k ks IH]; intros f h w Hp.
  - simpl. unfold ret. rewrite list_insert_id by exact Hp. reflexivity.
  - simpl for_each. rewrite (bind_run _ _ _ _ _ (decorate_run cfg s p k f h w Hp)).
    rewrite (IH (decorated_key h cfg s k f)) by (eapply lookup_insert_same; exact Hp).
    rewrite insert_insert_same, decorated_insert. simpl decorated.
    rewrite (list_insert_id h p (ODict f)) by exact Hp. reflexivity.
Qed.

Lemma dict_mem_get k f : dict_mem k f = true <-> dict_get k f <> None.
Proof. unfold dict_mem. destruct (dict_get k f); split; congruence. Qed.

Lemma decorated_key_other h cfg s k k' f :
  k' <> k -> dict_get k' (decorated_key h cfg s k f) = dict_get k' f.
Proof.
  intros Hne. unfold decorated_key. destruct (dict_mem k f); [reflexivity |].
  destruct (dict_get k cfg); [| reflexivity]. apply dict_get_set_ne. auto.
Qed.

Lemma decorated_key_present h cfg s k k' f :
  dict_mem k' f = true -> dict_get k' (decorated_key h cfg s k f) = dict_get k' f.
Proof.
  intros Hmem. destruct (String.eqb k' k) eqn:Ek.
  - apply String.eqb_eq in Ek. subst k'. unfold decorated_key. rewrite Hmem. reflexivity.
  - apply decorated_key_other. intros ->. rewrite String.eqb_refl in Ek. discriminate.
Qed.

Lemma decorated_keeps h p cfg s k' : forall ks f,
  k' ∉ ks \/ dict_mem k' f = true ->
  dict_get k' (decorated h p cfg s ks f) = dict_get k' f.
Proof.
  induction ks as [| k ks IH]; intros f Hk; [reflexivity |]. simpl.
  assert (Hstep : dict_get k' (decorated_key (<[p := ODict f]> h) cfg s k f)
                  = dict_get k' f).
  { destruct Hk as [Hk | Hk].
    - apply decorated_key_other. intros ->. apply Hk. left.
    - apply decorated_key_present. exact Hk. }
  rewrite IH; [exact Hstep |].
  destruct Hk as [Hk | Hk].
  - left. intros Hin. apply Hk. right. exact Hin.
  - right. unfold dict_mem in *. rewrite Hstep. exact Hk.
Qed.

Lemma pick_insert h p f0 s v : v <> VRef p -> pick (<[p := ODict f0]> h) s v = pick h s v.
Proof.
  intros Hv. unfold pick, fields_of, obj_of. destruct v; try reflexivity.
  rewrite list_lookup_insert_ne; [reflexivity |]. intros ->. apply Hv. reflexivity.
Qed.

Lemma decorated_sets h p cfg s k v : forall ks f,
  NoDup ks -> k ∈ ks -> dict_mem k f = false ->
  dict_get k cfg = Some v -> v <> VRef p ->
  dict_get k (decorated h p cfg s ks f) = Some (pick h s v).
Proof.
  induction ks as [| k0 ks IH]; intros f Hnd Hin Hmem Hcfg Hv; [inversion Hin |].
  apply NoDup_cons in Hnd as [Hk0 Hnd]. simpl.
  destruct (String.eqb k k0) eqn:Ek.
  - apply String.eqb_eq in Ek. subst k0.
    rewrite decorated_keeps by (left; exact Hk0).
    unfold decorated_key. rewrite Hmem, Hcfg, pick_insert by exact Hv.
    apply dict_get_set_eq.
  - assert (Hne : k <> k0) by (intros ->; rewrite String.eqb_refl in Ek; discriminate).
    apply elem_of_cons in Hin as [-> | Hin]; [contradiction |].
    apply IH; try assumption.
    unfold dict_mem in *. rewrite decorated_key_other by exact Hne. exact Hmem.
Qed.

Lemma decorated_unset h p cfg s k : forall ks f,
  dict_mem k f = false -> dict_get k cfg = None ->
  dict_get k (decorated h p cfg s ks f) = None.
Proof.
  induction ks as [| k0 ks IH]; intros f Hmem Hcfg.
  - simpl. unfold dict_mem in Hmem. destruct (dict_get k f); [discriminate | reflexivity].
  - simpl. apply IH; [| exact Hcfg].
    unfold dict_mem in *.
    destruct (String.eqb k k0) eqn:Ek.
    + apply String.eqb_eq in Ek. subst k0. unfold decorated_key, dict_mem.
      destruct (dict_get k f) eqn:E; [discriminate |]. rewrite Hcfg, E. reflexivity.
    + rewrite decorated_key_other; [exact Hmem |].
      intros ->. rewrite String.eqb_refl in Ek. discriminate.
Qed.

(** The [name] lines 69-72 give a point of sample [s]. *)
Definition point_name (E : env) (h : list object) (s : string) (f : dict) : value :=
  match dict_get "name" f with
  | Some n => VStr (s +:+ ": " +:+ py_str E h n)
  | None => VStr s
  end.

Lemma set_name_run E s p f h w :
  h !! p = Some (ODict f) ->
  set_name E (VStr s) (VRef p) (set_heap h w)
  = (Ok tt, set_heap (<[p := ODict (dict_set "name" (point_name E h s f) f)]> h) w).
Proof.
  intros Hp. unfold set_name, point_name.
  rewrite (bind_run _ _ _ f (set_heap h w))
    by (unfold rd; simpl heap; rewrite (as_dict_at _ _ _ Hp); reflexivity).
  destruct (dict_get "name" f) as [n |].
  - rewrite (bind_run _ _ _ (VStr (s +:+ ": " +:+ py_str E h n)) (set_heap h w))
      by reflexivity.
    apply py_setitem_dict_at. exact Hp.
  - apply py_setitem_dict_at. exact Hp.
Qed.

Lemma list_append_at d old v h w :
  h !! d = Some (OList old) ->
  list_append (VRef d) v (set_heap h w)
  = (Ok tt, set_heap (<[d := OList (old ++ [v])]> h) w).
Proof. intros H. unfold list_append, store. simpl heap. rewrite H. reflexivity. Qed.

Lemma process_point_keep E cfg s p dl f old h w :
  h !! p = Some (ODict f) ->
  h !! dl = Some (OList old) ->
  skip_point E cfg (VRef p) h = Ok false ->
  process_point E cfg (VStr s) (VRef dl) (VRef p) (set_heap h w)
  = (Ok tt,
     set_heap (<[dl := OList (old ++ [VRef p])]>
                 (<[p := ODict (decorated h p cfg s decoration_keys
                                  (dict_set "name" (point_name E h s f) f))]> h)) w).
Proof.
  intros Hp Hd Hskip.
  assert (Hne : p <> dl) by (intros ->; rewrite Hp in Hd; discriminate).
  unfold process_point.
  rewrite (bind_run _ _ _ false (set_heap h w))
    by (unfold rd; simpl heap; rewrite Hskip; reflexivity).
  rewrite (bind_run _ _ _ _ _ (set_name_run E s p f h w Hp)).
  rewrite (bind_run _ _ _ tt
             (set_heap (<[p := ODict (decorated h p cfg s decoration_keys
                                        (dict_set "name" (point_name E h s f) f))]> h) w)).
  2:{ rewrite decorate_all_run with (f := dict_set "name" (point_name E h s f) f)
        by (eapply lookup_insert_same; exact Hp).
      rewrite insert_insert_same, decorated_insert. reflexivity. }
  apply list_append_at. rewrite list_lookup_insert_ne by exact Hne. exact Hd.
Qed.

Lemma decoration_key_not_name k : k ∈ decoration_keys -> k <> "name".
Proof.
  intros Hin ->. revert Hin. apply (bool_decide_unpack _). exact I.
Qed.

(** Lines 69-81.  A point the filter keeps is appended to the dataset's list
    as the very object the caller passed, updated in place: its [name] is the
    sample name, followed by [": "] and the name it carried when it had one;
    every attribute other than [name] and the four decoration keys is left
    alone; a decoration key the point already has is never overwritten; one
    it lacks is filled from the series configuration, with the sample's own
    entry when the configured value is a dict that has one; one that the
    configuration lacks too stays absent. *)
Theorem retained_point_is_named_and_decorated
    (E : env) (cfg : dict) (s : string) (p dl : loc) (f : dict)
    (old : list value) (h : list object) (w : world) :
  h !! p = Some (ODict f) ->
  h !! dl = Some (OList old) ->
  skip_point E cfg (VRef p) h = Ok false ->
  exists f',
    process_point E cfg (VStr s) (VRef dl) (VRef p) (set_heap h w)
    = (Ok tt, set_heap (<[dl := OList (old ++ [VRef p])]> (<[p := ODict f']> h)) w) /\
    dict_get "name" f' = Some (point_name E h s f) /\
    (forall k, k ∉ "name" :: decoration_keys -> dict_get k f' = dict_get k f) /\
    (forall k, k ∈ decoration_keys -> dict_mem k f = true ->
       dict_get k f' = dict_get k f) /\
    (forall k v, k ∈ decoration_keys -> dict_mem k f = false ->
       dict_get k cfg = Some v -> v <> VRef p ->
       dict_get k f' = Some (pick h s v)) /\
    (forall k, k ∈ decoration_keys -> dict_mem k f = false ->
       dict_get k cfg = None -> dict_get k f' = None).
Proof.
  intros Hp Hd Hskip.
  exists (decorated h p cfg s decoration_keys (dict_set "name" (point_name E h s f) f)).
  split; [apply process_point_keep; assumption |].
  assert (Hmem : forall k, k <> "name" ->
            dict_mem k (dict_set "name" (point_name E h s f) f) = dict_mem k f).
  { intros k Hk. unfold dict_mem. rewrite dict_get_set_ne by auto. reflexivity. }
  repeat split.
  - rewrite decorated_keeps by (left; apply (bool_decide_unpack _); exact I).
    apply dict_get_set_eq.
  - intros k Hk. apply not_elem_of_cons in Hk as [Hname Hk].
    rewrite decorated_keeps by (left; exact Hk).
    apply dict_get_set_ne. auto.
  - intros k Hk Hin.
    pose proof (decoration_key_not_name k Hk) as Hname.
    rewrite decorated_keeps by (right; rewrite Hmem by exact Hname; exact Hin).
    apply dict_get_set_ne. auto.
  - intros k v Hk Hin Hcfg Hv.
    pose proof (decoration_key_not_name k Hk) as Hname.
    apply decorated_sets; try assumption.
    + apply (bool_decide_unpack _). exact I.
    + rewrite Hmem by exact Hname. exact Hin.
  - intros k Hk Hin Hcfg.
    pose proof (decoration_key_not_name k Hk) as Hname.
    apply decorated_unset; [| exact Hcfg].
    rewrite Hmem by exact Hname. exact Hin.
Qed.

(** Sample [s1] with the point [{"x": 1, "y": 2, "name": "a", "color": "red"}]
    under a configuration whose [opacity] is per sample ([0.5] for [s1]) and
    whose [color] the point overrides. *)
Definition decorated_store : list object :=
  [ ODict [("x", VInt 1); ("y", VInt 2); ("name", VStr "a"); ("color", VStr "red")];
    OList [];
    ODict [("s1", VFloat (S754_finite false 4503599627370496 (-53)))] ].

Definition decorated_cfg : dict :=
  [("color", VStr "blue"); ("opacity", VRef 2); ("xmax", VInt 5)].

Lemma retained_point_witness :
  exists f',
    process_point (demo_env false NoScatter) decorated_cfg (VStr "s1") (VRef 1) (VRef 0)
      (set_heap decorated_store (fresh_world decorated_store))
    = (Ok tt, set_heap (<[1%nat := OList ([] ++ [VRef 0])]>
                          (<[0%nat := ODict f']> decorated_store))
                (fresh_world decorated_store)) /\
    dict_get "name" f'
    = Some (point_name (demo_env false NoScatter) decorated_store "s1"
              [("x", VInt 1); ("y", VInt 2); ("name", VStr "a"); ("color", VStr "red")]) /\
    (forall k, k ∉ "name" :: decoration_keys ->
       dict_get k f'
       = dict_get k [("x", VInt 1); ("y", VInt 2); ("name", VStr "a");
                     ("color", VStr "red")]) /\
    (forall k, k ∈ decoration_keys ->
       dict_mem k [("x", VInt 1); ("y", VInt 2); ("name", VStr "a");
                   ("color", VStr "red")] = true ->
       dict_get k f'
       = dict_get k [("x", VInt 1); ("y", VInt 2); ("name", VStr "a");
                     ("color", VStr "red")]) /\
    (forall k v, k ∈ decoration_keys ->
       dict_mem k [("x", VInt 1); ("y", VInt 2); ("name", VStr "a");
                   ("color", VStr "red")] = false ->
       dict_get k decorated_cfg = Some v -> v <> VRef 0 ->
       dict_get k f' = Some (pick decorated_store "s1" v)) /\
    (forall k, k ∈ decoration_keys ->
       dict_mem k [("x", VInt 1); ("y", VInt 2); ("name", VStr "a");
                   ("color", VStr "red")] = false ->
       dict_get k decorated_cfg = None -> dict_get k f' = None).
Proof.
  exact (retained_point_is_named_and_decorated (demo_env false NoScatter)
           decorated_cfg "s1" 0%nat 1%nat
           [("x", VInt 1); ("y", VInt 2); ("name", VStr "a"); ("color", VStr "red")]
           [] decorated_store (fresh_world decorated_store)
           eq_refl eq_refl eq_refl).
Defined.

(** The double [x] is strictly above the double [m]: both are numbers and
    [m < x]. *)
Definition strictly_above (x m : spec_float) : Prop :=
  xlt (xnum_of_float m) (xnum_of_float x).

(** Coordinate [c] breaks one of the bounds [cfg] sets under [kmax] and
    [kmin]: [float] converts it, and the double is strictly above the
    maximum or strictly below the minimum. *)
Definition violates (E : env) (cfg : dict) (kmax kmin : string) (c : value) : Prop :=
  c <> VNone /\
  exists x, to_float E c = Ok x /\
    ((exists vmax m, dict_get kmax cfg = Some vmax /\ to_float E vmax = Ok m /\
                     strictly_above x m) \/
     (exists vmin m, dict_get kmin cfg = Some vmin /\ to_float E vmin = Ok m /\
                     strictly_above m x)).

Lemma beyond_true E cfg kmax kmin c :
  beyond E cfg kmax kmin c = Ok true -> violates E cfg kmax kmin c.
Proof.
  intros H.
  assert (Hc : c <> VNone) by (intros ->; discriminate).
  rewrite (beyond_unfold _ _ _ _ _ Hc) in H.
  split; [exact Hc |].
  apply rbind_Ok in H as (over & Hover & Hrest).
  destruct over.
  - destruct (dict_get kmax cfg) as [vmax |]; [| discriminate].
    apply rbind_Ok in Hover as (x & Hx & Hover).
    apply rbind_Ok in Hover as (m & Hm & Hover). inversion Hover as [Hgt].
    exists x. split; [exact Hx |]. left. exists vmax, m. repeat split; try assumption.
    apply xgt_true. exact Hgt.
  - destruct (dict_get kmin cfg) as [vmin |]; [| discriminate].
    apply rbind_Ok in Hrest as (x & Hx & Hrest).
    apply rbind_Ok in Hrest as (m & Hm & Hrest). inversion Hrest as [Hlt].
    exists x. split; [exact Hx |]. right. exists vmin, m. repeat split; try assumption.
    apply xgt_true. exact Hlt.
Qed.

(** Lines 58-68.  A point is dropped only for a coordinate that is not
    [None], that [float] converts, and whose double is strictly above the
    maximum or strictly below the minimum the series configuration sets for
    its axis (so neither is a NaN); dropping it changes nothing: it is not
    renamed, not decorated and not appended. *)
Theorem dropped_point_breaks_a_bound
    (E : env) (cfg : dict) (s_name d point : value) (w : world) :
  skip_point E cfg point (heap w) = Ok true ->
  process_point E cfg s_name d point w = (Ok tt, w) /\
  ((exists x, py_getitem point (VStr "x") (heap w) = Ok x /\
              violates E cfg "xmax" "xmin" x) \/
   (exists y, py_getitem point (VStr "y") (heap w) = Ok y /\
              violates E cfg "ymax" "ymin" y)).
Proof.
  intros H. split.
  - unfold process_point.
    rewrite (bind_run _ _ w true w) by (unfold rd; rewrite H; reflexivity).
    reflexivity.
  - unfold skip_point in H.
    apply rbind_Ok in H as (x & Hx & H).
    apply rbind_Ok in H as (bx & Hbx & H).
    destruct bx.
    + left. exists x. split; [exact Hx | apply beyond_true; exact Hbx].
    + apply rbind_Ok in H as (y & Hy & Hby).
      right. exists y. split; [exact Hy | apply beyond_true; exact Hby].
Qed.

Lemma dropped_point_witness :
  process_point (demo_env false NoScatter) [("ymin", VInt 3)] (VStr "s1") (VRef 1)
    (VRef 0) (fresh_world decorated_store)
  = (Ok tt, fresh_world decorated_store) /\
  ((exists x, py_getitem (VRef 0) (VStr "x") (heap (fresh_world decorated_store)) = Ok x /\
              violates (demo_env false NoScatter) [("ymin", VInt 3)] "xmax" "xmin" x) \/
   (exists y, py_getitem (VRef 0) (VStr "y") (heap (fresh_world decorated_store)) = Ok y /\
              violates (demo_env false NoScatter) [("ymin", VInt 3)] "ymax" "ymin" y)).
Proof.
  exact (dropped_point_breaks_a_bound (demo_env false NoScatter) [("ymin", VInt 3)]
           (VStr "s1") (VRef 1) (VRef 0) (fresh_world decorated_store) eq_refl).
Defined.

(** ** The square layout (lines 84-95) *)

Lemma square_layout_off plotdata pc cfg h w :
  h !! pc = Some (ODict cfg) ->
  py_truthy (dict_get_default "square" cfg VNone) h = false ->
  square_layout plotdata (VRef pc) (set_heap h w) = (Ok tt, set_heap h w).
Proof.
  intros Hpc Hsq. unfold square_layout.
  rewrite (bind_run _ _ _ cfg (set_heap h w))
    by (unfold rd; simpl heap; rewrite (as_dict_at _ _ _ Hpc); reflexivity).
  rewrite (bind_run _ _ _ false (set_heap h w))
    by (unfold rd; simpl heap; rewrite Hsq; reflexivity).
  reflexivity.
Qed.

Lemma square_layout_given plotdata pc cfg h w :
  h !! pc = Some (ODict cfg) ->
  py_truthy (dict_get_default "square" cfg VNone) h = true ->
  dict_mem "xmax" cfg = true \/ dict_mem "ymax" cfg = true ->
  square_layout plotdata (VRef pc) (set_heap h w)
  = (Ok tt, set_heap (<[pc := ODict (dict_set "endOnTick" (VBool false) cfg)]> h) w).
Proof.
  intros Hpc Hsq Hgiven. unfold square_layout.
  rewrite (bind_run _ _ _ cfg (set_heap h w))
    by (unfold rd; simpl heap; rewrite (as_dict_at _ _ _ Hpc); reflexivity).
  rewrite (bind_run _ _ _ true (set_heap h w))
    by (unfold rd; simpl heap; rewrite Hsq; reflexivity).
  cbv beta iota.
  rewrite (bind_run _ _ _ tt _ (py_setitem_dict_at pc cfg "endOnTick" (VBool false) h w Hpc)).
  rewrite (bind_run _ _ _ (dict_set "endOnTick" (VBool false) cfg)
             (set_heap (<[pc := ODict (dict_set "endOnTick" (VBool false) cfg)]> h) w)).
  2:{ unfold rd; simpl heap.
      rewrite (as_dict_at _ pc (dict_set "endOnTick" (VBool false) cfg))
        by (eapply lookup_insert_same; exact Hpc).
      reflexivity. }
  cbv beta.
  assert (Hx : dict_mem "xmax" (dict_set "endOnTick" (VBool false) cfg)
               = dict_mem "xmax" cfg) by (apply dict_mem_set_ne; discriminate).
  assert (Hy : dict_mem "ymax" (dict_set "endOnTick" (VBool false) cfg)
               = dict_mem "ymax" cfg) by (apply dict_mem_set_ne; discriminate).
  rewrite Hx, Hy.
  destruct Hgiven as [-> | ->]; [destruct (dict_mem "ymax" cfg) |]; reflexivity.
Qed.

Lemma xle_refl a : a <> XNaN -> xle a a.
Proof. destruct a as [| [] | x]; simpl; auto using Qle_refl. Qed.

Lemma xle_trans a b c : xle a b -> xle b c -> xle a c.
Proof.
  destruct a as [| [] | x], b as [| [] | y], c as [| [] | z]; simpl; auto;
    try contradiction.
  apply Qle_trans.
Qed.

Lemma xle_not_nan a b : xle a b -> a <> XNaN /\ b <> XNaN.
Proof.
  destruct a as [| [] | x], b as [| [] | y]; simpl; intros H; split;
    try discriminate; contradiction.
Qed.

Lemma xlt_xle a b : xlt a b -> xle a b.
Proof.
  destruct a as [| [] | x], b as [| [] | y]; simpl; auto. apply Qlt_le_weak.
Qed.

(** [c] is a number and [c > q] is false: [c] is a NaN or [c <= q]. *)
Definition bounded (q : xnum) (c : value) : Prop :=
  exists qc, num_of c = Some qc /\ (qc = XNaN \/ xle qc q).

Lemma bounded_weaken q q' c : bounded q c -> xle q q' -> bounded q' c.
Proof.
  intros (qc & Hc & [Hnan | Hle]) Hq; exists qc; split; auto.
  right. eapply xle_trans; eassumption.
Qed.

Lemma xgt_false_le a b : b <> XNaN -> xgt a b = false -> a = XNaN \/ xle a b.
Proof.
  intros Hb H. apply xgt_false in H as [H | [H | H]]; auto. contradiction.
Qed.

Lemma py_max3_num m x y qm qx qy :
  num_of m = Some qm -> qm <> XNaN -> num_of x = Some qx -> num_of y = Some qy ->
  exists r qr, py_max3 m x y = Ok r /\ num_of r = Some qr /\ qr <> XNaN /\
    xle qm qr /\ (qx = XNaN \/ xle qx qr) /\ (qy = XNaN \/ xle qy qr) /\
    (r = m \/ r = x \/ r = y).
Proof.
  intros Hm Hnan Hx Hy. unfold py_max3, py_gt. rewrite Hx, Hm. simpl.
  destruct (xgt qx qm) eqn:E1.
  - apply xgt_true, xlt_xle in E1. destruct (xle_not_nan _ _ E1) as [_ Hxn].
    rewrite Hy, Hx. simpl.
    destruct (xgt qy qx) eqn:E2.
    + apply xgt_true, xlt_xle in E2. destruct (xle_not_nan _ _ E2) as [_ Hyn].
      exists y, qy. repeat split; auto.
      * eapply xle_trans; eassumption.
      * right. apply xle_refl. exact Hyn.
    + apply (xgt_false_le _ _ Hxn) in E2.
      exists x, qx. repeat split; auto. right. apply xle_refl. exact Hxn.
  - apply (xgt_false_le _ _ Hnan) in E1. rewrite Hy, Hm. simpl.
    destruct (xgt qy qm) eqn:E2.
    + apply xgt_true, xlt_xle in E2. destruct (xle_not_nan _ _ E2) as [_ Hyn].
      exists y, qy. repeat split; auto.
      * destruct E1 as [E1 | E1]; [left; exact E1 | right].
        eapply xle_trans; eassumption.
      * right. apply xle_refl. exact Hyn.
    + apply (xgt_false_le _ _ Hnan) in E2.
      exists m, qm. repeat split; auto. apply xle_refl. exact Hnan.
Qed.

Definition is_num (v : value) : bool :=
  match num_of v with Some _ => true | None => false end.

(** Every point of every dataset has a number for [x] and for [y]. *)
Definition numeric_point (h : list object) (s : value) : bool :=
  match py_getitem s (VStr "x") h, py_getitem s (VStr "y") h with
  | Ok x, Ok y => is_num x && is_num y
  | _, _ => false
  end.

Definition numeric_dataset (h : list object) (d : value) : bool :=
  match py_iter d h with
  | Ok points => forallb (numeric_point h) points
  | Raise _ => false
  end.

Definition numeric_plotdata (h : list object) (plotdata : value) : bool :=
  match py_iter plotdata h with
  | Ok ds => forallb (numeric_dataset h) ds
  | Raise _ => false
  end.

(** [c] is the [x] or the [y] of point [s], of a point of dataset [d], of a
    point of [plotdata]. *)
Definition coord_in_point (h : list object) (s c : value) : Prop :=
  exists k, (k = "x" \/ k = "y") /\ py_getitem s (VStr k) h = Ok c.

Definition coord_in_dataset (h : list object) (d c : value) : Prop :=
  exists points s, py_iter d h = Ok points /\ s ∈ points /\ coord_in_point h s c.

Definition coordinate_of (h : list object) (plotdata c : value) : Prop :=
  exists ds d, py_iter plotdata h = Ok ds /\ d ∈ ds /\ coord_in_dataset h d c.

Lemma max_step_num h m qm s :
  num_of m = Some qm -> qm <> XNaN -> numeric_point h s = true ->
  exists r qr, max_step m s h = Ok r /\ num_of r = Some qr /\ qr <> XNaN /\
    xle qm qr /\
    (forall c, coord_in_point h s c -> bounded qr c) /\
    (r = m \/ coord_in_point h s r).
Proof.
  intros Hm Hnan Hs. unfold numeric_point in Hs.
  destruct (py_getitem s (VStr "x") h) as [x |] eqn:Hx; [| discriminate].
  destruct (py_getitem s (VStr "y") h) as [y |] eqn:Hy; [| discriminate].
  apply andb_true_iff in Hs as [Hnx Hny]. unfold is_num in Hnx, Hny.
  destruct (num_of x) as [qx |] eqn:Ex; [| discriminate].
  destruct (num_of y) as [qy |] eqn:Ey; [| discriminate].
  destruct (py_max3_num m x y qm qx qy Hm Hnan Ex Ey)
    as (r & qr & Hr & Hnr & Hrn & Hmr & Hxr & Hyr & Hwhich).
  exists r, qr. unfold max_step. rewrite Hx, Hy. simpl.
  repeat split; try assumption.
  - intros c (k & [-> | ->] & Hc).
    + rewrite Hx in Hc. inversion Hc; subst c. exists qx. auto.
    + rewrite Hy in Hc. inversion Hc; subst c. exists qy. auto.
  - destruct Hwhich as [-> | [-> | ->]]; [left; reflexivity | right | right].
    + exists "x". auto.
    + exists "y". auto.
Qed.

Lemma fold_max_num f h (good : value -> bool) (inside : value -> value -> Prop) :
  (forall m qm x, num_of m = Some qm -> qm <> XNaN -> good x = true ->
     exists r qr, f m x h = Ok r /\ num_of r = Some qr /\ qr <> XNaN /\ xle qm qr /\
       (forall c, inside x c -> bounded qr c) /\ (r = m \/ inside x r)) ->
  forall xs m qm, num_of m = Some qm -> qm <> XNaN -> forallb good xs = true ->
    exists r qr, fold_max f m xs h = Ok r /\ num_of r = Some qr /\ qr <> XNaN /\
      xle qm qr /\
      (forall x c, x ∈ xs -> inside x c -> bounded qr c) /\
      (r = m \/ exists x, x ∈ xs /\ inside x r).
Proof.
  intros Hf. induction xs as [| x xs IH]; intros m qm Hm Hnan Hall.
  - exists m, qm. simpl. repeat split; auto.
    + apply xle_refl. exact Hnan.
    + intros x c Hin. inversion Hin.
  - simpl in Hall. apply andb_true_iff in Hall as [Hx Hall].
    destruct (Hf m qm x Hm Hnan Hx) as (r1 & q1 & Hr1 & Hn1 & Hnan1 & Hle1 & Hb1 & Hw1).
    destruct (IH r1 q1 Hn1 Hnan1 Hall) as (r & qr & Hr & Hn & Hnanr & Hle & Hb & Hw).
    exists r, qr. simpl. rewrite Hr1. simpl. repeat split; try assumption.
    + eapply xle_trans; eassumption.
    + intros x' c Hin Hc. apply elem_of_cons in Hin as [-> | Hin].
      * eapply bounded_weaken; [apply Hb1; exact Hc | exact Hle].
      * eapply Hb; eassumption.
    + destruct Hw as [-> | (x' & Hin & Hc)].
      * destruct Hw1 as [-> | Hc]; [left; reflexivity |].
        right. exists x. split; [left | exact Hc].
      * right. exists x'. split; [right; exact Hin | exact Hc].
Qed.

Lemma max_of_dataset_num h m qm d :
  num_of m = Some qm -> qm <> XNaN -> numeric_dataset h d = true ->
  exists r qr, max_of_dataset m d h = Ok r /\ num_of r = Some qr /\ qr <> XNaN /\
    xle qm qr /\
    (forall c, coord_in_dataset h d c -> bounded qr c) /\
    (r = m \/ coord_in_dataset h d r).
Proof.
  intros Hm Hnan Hd. unfold numeric_dataset in Hd.
  destruct (py_iter d h) as [points |] eqn:Hps; [| discriminate].
  destruct (fold_max_num max_step h (numeric_point h) (coord_in_point h)
              (fun m qm s => max_step_num h m qm s) points m qm Hm Hnan Hd)
    as (r & qr & Hr & Hn & Hnanr & Hle & Hb & Hw).
  exists r, qr. unfold max_of_dataset. rewrite Hps. simpl.
  repeat split; try assumption.
  - intros c (points' & s & Hps' & Hin & Hc).
    rewrite Hps in Hps'. inversion Hps'; subst points'. eapply Hb; eassumption.
  - destruct Hw as [-> | (s & Hin & Hc)]; [left; reflexivity |].
    right. exists points, s. auto.
Qed.

Lemma find_max_num h plotdata :
  numeric_plotdata h plotdata = true ->
  exists m q, find_max plotdata h = Ok m /\ num_of m = Some q /\ q <> XNaN /\
    xle (XFin 0) q /\
    (forall c, coordinate_of h plotdata c -> bounded q c) /\
    (m = VInt 0 \/ coordinate_of h plotdata m).
Proof.
  intros Hpd. unfold numeric_plotdata in Hpd.
  destruct (py_iter plotdata h) as [ds |] eqn:Hds; [| discriminate].
  assert (Hzero : XFin (inject_Z 0) <> XNaN) by discriminate.
  destruct (fold_max_num max_of_dataset h (numeric_dataset h) (coord_in_dataset h)
              (fun m qm d => max_of_dataset_num h m qm d) ds (VInt 0) _ eq_refl Hzero Hpd)
    as (r & qr & Hr & Hn & Hnanr & Hle & Hb & Hw).
  exists r, qr. unfold find_max. rewrite Hds. simpl.
  repeat split; try assumption.
  - intros c (ds' & d & Hds' & Hin & Hc).
    rewrite Hds in Hds'. inversion Hds'; subst ds'. eapply Hb; eassumption.
  - destruct Hw as [-> | (d & Hin & Hc)]; [left; reflexivity |].
    right. exists ds, d. auto.
Qed.

Lemma dict_get_default_absent k d dflt :
  dict_mem k d = false -> dict_get_default k d dflt = dflt.
Proof.
  unfold dict_mem, dict_get_default. destruct (dict_get k d); [discriminate | reflexivity].
Qed.

(** The configuration once the square layout has set both bounds to [v]. *)
Definition squared (v : value) (cfg : dict) : dict :=
  dict_set "ymax" v (dict_set "xmax" v (dict_set "endOnTick" (VBool false) cfg)).

Lemma square_layout_search plotdata pc cfg h w m :
  h !! pc = Some (ODict cfg) ->
  py_truthy (dict_get_default "square" cfg VNone) h = true ->
  dict_mem "xmax" cfg = false ->
  dict_mem "ymax" cfg = false ->
  find_max plotdata (<[pc := ODict (dict_set "endOnTick" (VBool false) cfg)]> h) = Ok m ->
  square_layout plotdata (VRef pc) (set_heap h w)
  = match py_fmul f_1_02 m with
    | Ok v => (Ok tt, set_heap (<[pc := ODict (squared v cfg)]> h) w)
    | Raise e =>
        (Raise e, set_heap (<[pc := ODict (dict_set "endOnTick" (VBool false) cfg)]> h) w)
    end.
Proof.
  intros Hpc Hsq Hx Hy Hmax. unfold square_layout.
  set (cfg1 := dict_set "endOnTick" (VBool false) cfg) in *.
  rewrite (bind_run _ _ _ cfg (set_heap h w))
    by (unfold rd; simpl heap; rewrite (as_dict_at _ _ _ Hpc); reflexivity).
  rewrite (bind_run _ _ _ true (set_heap h w))
    by (unfold rd; simpl heap; rewrite Hsq; reflexivity).
  cbv beta iota.
  rewrite (bind_run _ _ _ tt _ (py_setitem_dict_at pc cfg "endOnTick" (VBool false) h w Hpc)).
  fold cfg1.
  assert (Hpc1 : <[pc := ODict cfg1]> h !! pc = Some (ODict cfg1))
    by (eapply lookup_insert_same; exact Hpc).
  rewrite (bind_run _ _ _ cfg1 (set_heap (<[pc := ODict cfg1]> h) w))
    by (unfold rd; simpl heap; rewrite (as_dict_at _ _ _ Hpc1); reflexivity).
  cbv beta.
  assert (Hx1 : dict_mem "xmax" cfg1 = false)
    by (unfold cfg1; rewrite dict_mem_set_ne by discriminate; exact Hx).
  assert (Hy1 : dict_mem "ymax" cfg1 = false)
    by (unfold cfg1; rewrite dict_mem_set_ne by discriminate; exact Hy).
  rewrite Hx1, Hy1. cbn [negb andb].
  rewrite (bind_run _ _ _ m (set_heap (<[pc := ODict cfg1]> h) w))
    by (unfold rd; simpl heap; rewrite Hmax; reflexivity).
  destruct (py_fmul f_1_02 m) as [mv | e] eqn:Hmul.
  2:{ apply bind_raise. unfold lift. reflexivity. }
  rewrite (bind_run _ _ _ mv (set_heap (<[pc := ODict cfg1]> h) w))
    by (unfold lift; reflexivity).
  rewrite (bind_run _ _ _ cfg1 (set_heap (<[pc := ODict cfg1]> h) w))
    by (unfold rd; simpl heap; rewrite (as_dict_at _ _ _ Hpc1); reflexivity).
  rewrite (dict_get_default_absent _ _ _ Hx1).
  rewrite (bind_run _ _ _ tt _
             (py_setitem_dict_at pc cfg1 "xmax" mv (<[pc := ODict cfg1]> h) w Hpc1)).
  rewrite insert_insert_same.
  assert (Hpc2 : <[pc := ODict (dict_set "xmax" mv cfg1)]> h !! pc
                 = Some (ODict (dict_set "xmax" mv cfg1)))
    by (eapply lookup_insert_same; exact Hpc).
  rewrite (bind_run _ _ _ (dict_set "xmax" mv cfg1)
             (set_heap (<[pc := ODict (dict_set "xmax" mv cfg1)]> h) w))
    by (unfold rd; simpl heap; rewrite (as_dict_at _ _ _ Hpc2); reflexivity).
  rewrite dict_get_default_absent
    by (rewrite dict_mem_set_ne by discriminate; exact Hy1).
  rewrite (py_setitem_dict_at pc _ "ymax" mv _ w Hpc2).
  rewrite insert_insert_same. reflexivity.
Qed.

(** Lines 84-95.  Unless [square] is truthy and neither [xmax] nor [ymax] is
    given, no bound is computed: the configuration changes at most by
    [endOnTick = False] (set whenever [square] is truthy), a given bound is
    kept, a missing one stays missing, and the points are not inspected. *)
Theorem square_computes_no_bound_when_one_is_given
    (plotdata : value) (pc : loc) (cfg : dict) (h : list object) (w : world) :
  h !! pc = Some (ODict cfg) ->
  py_truthy (dict_get_default "square" cfg VNone) h = false \/
  dict_mem "xmax" cfg = true \/ dict_mem "ymax" cfg = true ->
  square_layout plotdata (VRef pc) (set_heap h w)
  = (Ok tt,
     set_heap (<[pc := ODict (if py_truthy (dict_get_default "square" cfg VNone) h
                              then dict_set "endOnTick" (VBool false) cfg
                              else cfg)]> h) w).
Proof.
  intros Hpc Hcase.
  destruct (py_truthy (dict_get_default "square" cfg VNone) h) eqn:Hsq.
  - apply (square_layout_given plotdata pc cfg h w Hpc Hsq).
    destruct Hcase as [Hoff | Hgiven]; [discriminate | exact Hgiven].
  - rewrite (list_insert_id _ _ _ Hpc).
    exact (square_layout_off plotdata pc cfg h w Hpc Hsq).
Qed.

(** A square plot of one dataset with the points (1, 2.5) and (4, 2). *)
Definition square_store (cfg : dict) : list object :=
  [ ODict [("x", VInt 1); ("y", VFloat (S754_finite false 5629499534213120 (-51)))];
    ODict [("x", VInt 4); ("y", VInt 2)];
    OList [VRef 0; VRef 1];
    OList [VRef 2];
    ODict cfg ].

Lemma square_given_bound_witness :
  square_layout (VRef 3) (VRef 4)
    (set_heap (square_store [("square", VBool true); ("xmax", VInt 3)])
       (fresh_world (square_store [("square", VBool true); ("xmax", VInt 3)])))
  = (Ok tt,
     set_heap (<[4%nat := ODict (if py_truthy
                                      (dict_get_default "square"
                                         [("square", VBool true); ("xmax", VInt 3)] VNone)
                                      (square_store [("square", VBool true); ("xmax", VInt 3)])
                                 then dict_set "endOnTick" (VBool false)
                                        [("square", VBool true); ("xmax", VInt 3)]
                                 else [("square", VBool true); ("xmax", VInt 3)])]>
                 (square_store [("square", VBool true); ("xmax", VInt 3)]))
       (fresh_world (square_store [("square", VBool true); ("xmax", VInt 3)]))).
Proof.
  exact (square_computes_no_bound_when_one_is_given (VRef 3) 4%nat
           [("square", VBool true); ("xmax", VInt 3)]
           (square_store [("square", VBool true); ("xmax", VInt 3)])
           (fresh_world (square_store [("square", VBool true); ("xmax", VInt 3)]))
           eq_refl (or_intror (or_introl eq_refl))).
Defined.

(** The maximum as a double: itself when it is a [float], the nearest
    double, ties to even, when it is an [int]. *)
Definition nearest_double (m : value) : option spec_float :=
  match m with
  | VFloat f => Some f
  | VInt z => Some (binary_normalize 53 1024 z 0 false)
  | VBool b => Some (binary_normalize 53 1024 (if b then 1 else 0) 0 false)
  | _ => None
  end.

(** Lines 84-95.  With [square] truthy, neither bound given and a number for
    every coordinate, the search finds a maximum [m]: a number that is not a
    NaN, at least 0, with no [x] and no [y] of the plot above it (a NaN
    coordinate is above nothing), and that is the initial 0 or one of the
    coordinates.  When [m] as a double is finite or a [float], [xmax] and
    [ymax] both become the IEEE product of the double [1.02] and that
    double; when [m] is an [int] beyond the doubles, [OverflowError] is
    raised with [endOnTick] already [False] and no bound set. *)
Theorem square_bounds_cover_every_point
    (plotdata : value) (pc : loc) (cfg : dict) (h : list object) (w : world) :
  h !! pc = Some (ODict cfg) ->
  py_truthy (dict_get_default "square" cfg VNone) h = true ->
  dict_mem "xmax" cfg = false ->
  dict_mem "ymax" cfg = false ->
  numeric_plotdata (<[pc := ODict (dict_set "endOnTick" (VBool false) cfg)]> h) plotdata
  = true ->
  exists m q f,
    num_of m = Some q /\ q <> XNaN /\ xle (XFin 0) q /\
    (forall c,
       coordinate_of (<[pc := ODict (dict_set "endOnTick" (VBool false) cfg)]> h)
         plotdata c -> bounded q c) /\
    (m = VInt 0 \/
     coordinate_of (<[pc := ODict (dict_set "endOnTick" (VBool false) cfg)]> h)
       plotdata m) /\
    nearest_double m = Some f /\
    square_layout plotdata (VRef pc) (set_heap h w)
    = match m, f with
      | VFloat _, _ | _, (S754_zero _ | S754_finite _ _ _ | S754_nan) =>
          let bound :=
            VFloat (SFmul 53 1024 (S754_finite false 4593671619917906 (-52)) f) in
          (Ok tt,
           set_heap (<[pc := ODict (dict_set "ymax" bound
                                      (dict_set "xmax" bound
                                         (dict_set "endOnTick" (VBool false) cfg)))]> h) w)
      | _, S754_infinity _ =>
          (Raise OverflowError,
           set_heap (<[pc := ODict (dict_set "endOnTick" (VBool false) cfg)]> h) w)
      end.
Proof.
  intros Hpc Hsq Hx Hy Hnum.
  destruct (find_max_num _ _ Hnum) as (m & q & Hmax & Hq & Hnan & Hpos & Hb & Hw).
  assert (Hf : exists f, nearest_double m = Some f).
  { destruct m; try discriminate; simpl; eauto. }
  destruct Hf as (f & Hf).
  exists m, q, f. repeat split; try assumption.
  rewrite (square_layout_search plotdata pc cfg h w m Hpc Hsq Hx Hy Hmax).
  unfold squared.
  destruct m as [| b | z | g | s | l]; try discriminate; simpl in Hf;
    inversion Hf; subst f; clear Hf.
  - unfold py_fmul, float_of_int, prec64, emax64.
    destruct (binary_normalize 53 1024 (if b then 1 else 0) 0 false); reflexivity.
  - unfold py_fmul, float_of_int, prec64, emax64.
    destruct (binary_normalize 53 1024 z 0 false); reflexivity.
  - reflexivity.
Qed.

Lemma square_bounds_witness :
  exists m q f,
    num_of m = Some q /\ q <> XNaN /\ xle (XFin 0) q /\
    (forall c,
       coordinate_of
         (<[4%nat := ODict (dict_set "endOnTick" (VBool false) [("square", VBool true)])]>
            (square_store [("square", VBool true)]))
         (VRef 3) c -> bounded q c) /\
    (m = VInt 0 \/
     coordinate_of
       (<[4%nat := ODict (dict_set "endOnTick" (VBool false) [("square", VBool true)])]>
          (square_store [("square", VBool true)]))
       (VRef 3) m) /\
    nearest_double m = Some f /\
    square_layout (VRef 3) (VRef 4)
      (set_heap (square_store [("square", VBool true)])
         (fresh_world (square_store [("square", VBool true)])))
    = match m, f with
      | VFloat _, _ | _, (S754_zero _ | S754_finite _ _ _ | S754_nan) =>
          let bound :=
            VFloat (SFmul 53 1024 (S754_finite false 4593671619917906 (-52)) f) in
          (Ok tt,
           set_heap (<[4%nat := ODict (dict_set "ymax" bound
                                         (dict_set "xmax" bound
                                            (dict_set "endOnTick" (VBool false)
                                               [("square", VBool true)])))]>
                       (square_store [("square", VBool true)]))
             (fresh_world (square_store [("square", VBool true)])))
      | _, S754_infinity _ =>
          (Raise OverflowError,
           set_heap (<[4%nat := ODict (dict_set "endOnTick" (VBool false)
                                         [("square", VBool true)])]>
                       (square_store [("square", VBool true)]))
             (fresh_world (square_store [("square", VBool true)])))
      end.
Proof.
  exact (square_bounds_cover_every_point (VRef 3) 4%nat [("square", VBool true)]
           (square_store [("square", VBool true)])
           (fresh_world (square_store [("square", VBool true)]))
           eq_refl eq_refl eq_refl eq_refl eq_refl).
Defined.

(** The padding is a rounded product: [1.02 * 7] is the double
    [7.140000000000001], and an [int] maximum beyond the doubles has no
    product. *)
Example square_padding_is_rounded :
  py_fmul f_1_02 (VInt 7) = Ok (VFloat (S754_finite false 8038925334856336 (-50))) /\
  py_fmul f_1_02 (VInt (10 ^ 400)) = Raise OverflowError.
Proof. split; vm_compute; reflexivity. Qed.

(** The point has an [x] and a [y], and one of them is not a number. *)
Definition non_numeric_point (h : list object) (s : value) : bool :=
  match py_getitem s (VStr "x") h, py_getitem s (VStr "y") h with
  | Ok x, Ok y => negb (is_num x && is_num y)
  | _, _ => false
  end.

Lemma max_step_raise h m qm s :
  num_of m = Some qm -> non_numeric_point h s = true ->
  max_step m s h = Raise TypeError.
Proof.
  intros Hm Hs. unfold non_numeric_point in Hs. unfold max_step.
  destruct (py_getitem s (VStr "x") h) as [x |]; [| discriminate].
  destruct (py_getitem s (VStr "y") h) as [y |]; [| discriminate].
  simpl. unfold py_max3, py_gt, is_num in *. rewrite Hm.
  destruct (num_of x) as [qx |] eqn:Ex; [| reflexivity]. simpl.
  destruct (num_of y) as [qy |] eqn:Ey; [discriminate |]. reflexivity.
Qed.

Lemma max_step_ok h m qm s :
  num_of m = Some qm -> numeric_point h s = true ->
  exists r qr, max_step m s h = Ok r /\ num_of r = Some qr.
Proof.
  intros Hm Hs. unfold numeric_point in Hs. unfold max_step.
  destruct (py_getitem s (VStr "x") h) as [x |]; [| discriminate].
  destruct (py_getitem s (VStr "y") h) as [y |]; [| discriminate].
  apply andb_true_iff in Hs as [Hnx Hny]. unfold is_num in Hnx, Hny.
  destruct (num_of x) as [qx |] eqn:Ex; [| discriminate].
  destruct (num_of y) as [qy |] eqn:Ey; [| discriminate].
  simpl. unfold py_max3, py_gt. rewrite Ex, Hm. simpl.
  destruct (xgt qx qm); rewrite Ey; [rewrite Ex | rewrite Hm]; simpl;
    match goal with |- context [if ?b then _ else _] => destruct b end; eauto.
Qed.

Lemma fold_max_raise f h (good : value -> bool) e bad post :
  (forall m qm x, num_of m = Some qm -> good x = true ->
     exists r qr, f m x h = Ok r /\ num_of r = Some qr) ->
  (forall m qm, num_of m = Some qm -> f m bad h = Raise e) ->
  forall pre m qm, num_of m = Some qm -> forallb good pre = true ->
    fold_max f m (pre ++ bad :: post) h = Raise e.
Proof.
  intros Hgood Hbad. induction pre as [| x pre IH]; intros m qm Hm Hall.
  - simpl. rewrite (Hbad m qm Hm). reflexivity.
  - simpl in Hall. apply andb_true_iff in Hall as [Hx Hall].
    destruct (Hgood m qm x Hm Hx) as (r & qr & Hr & Hn).
    simpl. rewrite Hr. simpl. eapply IH; eassumption.
Qed.

Lemma fold_max_ok f h (good : value -> bool) :
  (forall m qm x, num_of m = Some qm -> good x = true ->
     exists r qr, f m x h = Ok r /\ num_of r = Some qr) ->
  forall xs m qm, num_of m = Some qm -> forallb good xs = true ->
    exists r qr, fold_max f m xs h = Ok r /\ num_of r = Some qr.
Proof.
  intros Hgood. induction xs as [| x xs IH]; intros m qm Hm Hall.
  - exists m, qm. auto.
  - simpl in Hall. apply andb_true_iff in Hall as [Hx Hall].
    destruct (Hgood m qm x Hm Hx) as (r & qr & Hr & Hn).
    simpl. rewrite Hr. simpl. eapply IH; eassumption.
Qed.

Lemma max_of_dataset_ok h m qm d :
  num_of m = Some qm -> numeric_dataset h d = true ->
  exists r qr, max_of_dataset m d h = Ok r /\ num_of r = Some qr.
Proof.
  intros Hm Hd. unfold numeric_dataset in Hd. unfold max_of_dataset.
  destruct (py_iter d h) as [points |]; [| discriminate]. simpl.
  exact (fold_max_ok max_step h (numeric_point h)
           (fun m qm s => max_step_ok h m qm s) points m qm Hm Hd).
Qed.

Lemma max_of_dataset_raise h m qm d pre s post :
  num_of m = Some qm ->
  py_iter d h = Ok (pre ++ s :: post) ->
  forallb (numeric_point h) pre = true ->
  non_numeric_point h s = true ->
  max_of_dataset m d h = Raise TypeError.
Proof.
  intros Hm Hd Hpre Hs. unfold max_of_dataset. rewrite Hd. simpl.
  apply (fold_max_raise max_step h (numeric_point h) TypeError s post) with (qm := qm);
    try assumption.
  - intros m' qm' x Hm' Hx. exact (max_step_ok h m' qm' x Hm' Hx).
  - intros m' qm' Hm'. eapply max_step_raise; eassumption.
Qed.

Lemma find_max_raise h plotdata dpre d dpost pre s post :
  py_iter plotdata h = Ok (dpre ++ d :: dpost) ->
  forallb (numeric_dataset h) dpre = true ->
  py_iter d h = Ok (pre ++ s :: post) ->
  forallb (numeric_point h) pre = true ->
  non_numeric_point h s = true ->
  find_max plotdata h = Raise TypeError.
Proof.
  intros Hds Hdpre Hd Hpre Hs. unfold find_max. rewrite Hds. simpl.
  apply (fold_max_raise max_of_dataset h (numeric_dataset h) TypeError d dpost)
    with (qm := XFin (inject_Z 0)); try assumption; try reflexivity.
  - intros m' qm' x Hm' Hx. exact (max_of_dataset_ok h m' qm' x Hm' Hx).
  - intros m' qm' Hm'. eapply max_of_dataset_raise; eassumption.
Qed.

(** Lines 84-95.  With [square] truthy and neither bound given, the first
    point whose [x] or [y] is not a number ([None], a string, a list) makes
    the search for the maximum raise [TypeError]; [endOnTick] is already
    [False] by then, and no bound has been set. *)
Theorem square_non_numeric_coordinate_raises
    (plotdata d s : value) (dpre dpost pre post : list value)
    (pc : loc) (cfg : dict) (h : list object) (w : world) :
  h !! pc = Some (ODict cfg) ->
  py_truthy (dict_get_default "square" cfg VNone) h = true ->
  dict_mem "xmax" cfg = false ->
  dict_mem "ymax" cfg = false ->
  py_iter plotdata (<[pc := ODict (dict_set "endOnTick" (VBool false) cfg)]> h)
  = Ok (dpre ++ d :: dpost) ->
  forallb (numeric_dataset (<[pc := ODict (dict_set "endOnTick" (VBool false) cfg)]> h))
    dpre = true ->
  py_iter d (<[pc := ODict (dict_set "endOnTick" (VBool false) cfg)]> h)
  = Ok (pre ++ s :: post) ->
  forallb (numeric_point (<[pc := ODict (dict_set "endOnTick" (VBool false) cfg)]> h))
    pre = true ->
  non_numeric_point (<[pc := ODict (dict_set "endOnTick" (VBool false) cfg)]> h) s
  = true ->
  square_layout plotdata (VRef pc) (set_heap h w)
  = (Raise TypeError,
     set_heap (<[pc := ODict (dict_set "endOnTick" (VBool false) cfg)]> h) w).
Proof.
  intros Hpc Hsq Hx Hy Hds Hdpre Hd Hpre Hs.
  pose proof (find_max_raise _ _ _ _ _ _ _ _ Hds Hdpre Hd Hpre Hs) as Hmax.
  unfold square_layout.
  set (cfg1 := dict_set "endOnTick" (VBool false) cfg) in *.
  rewrite (bind_run _ _ _ cfg (set_heap h w))
    by (unfold rd; simpl heap; rewrite (as_dict_at _ _ _ Hpc); reflexivity).
  rewrite (bind_run _ _ _ true (set_heap h w))
    by (unfold rd; simpl heap; rewrite Hsq; reflexivity).
  cbv beta iota.
  rewrite (bind_run _ _ _ tt _ (py_setitem_dict_at pc cfg "endOnTick" (VBool false) h w Hpc)).
  fold cfg1.
  assert (Hpc1 : <[pc := ODict cfg1]> h !! pc = Some (ODict cfg1))
    by (eapply lookup_insert_same; exact Hpc).
  rewrite (bind_run _ _ _ cfg1 (set_heap (<[pc := ODict cfg1]> h) w))
    by (unfold rd; simpl heap; rewrite (as_dict_at _ _ _ Hpc1); reflexivity).
  cbv beta.
  assert (Hx1 : dict_mem "xmax" cfg1 = false)
    by (unfold cfg1; rewrite dict_mem_set_ne by discriminate; exact Hx).
  assert (Hy1 : dict_mem "ymax" cfg1 = false)
    by (unfold cfg1; rewrite dict_mem_set_ne by discriminate; exact Hy).
  rewrite Hx1, Hy1. cbn [negb andb].
  apply bind_raise. unfold rd. simpl heap. rewrite Hmax. reflexivity.
Qed.

(** The square plot of [square_store] with a third point whose [y] is
    [None]. *)
Definition square_none_store : list object :=
  [ ODict [("x", VInt 1); ("y", VFloat (S754_finite false 5629499534213120 (-51)))];
    ODict [("x", VInt 4); ("y", VNone)];
    OList [VRef 0; VRef 1];
    OList [VRef 2];
    ODict [("square", VBool true)] ].

Lemma square_non_numeric_witness :
  square_layout (VRef 3) (VRef 4)
    (set_heap square_none_store (fresh_world square_none_store))
  = (Raise TypeError,
     set_heap (<[4%nat := ODict (dict_set "endOnTick" (VBool false)
                                   [("square", VBool true)])]> square_none_store)
       (fresh_world square_none_store)).
Proof.
  exact (square_non_numeric_coordinate_raises (VRef 3) (VRef 2) (VRef 1) [] []
           [VRef 0] [] 4%nat [("square", VBool true)] square_none_store
           (fresh_world square_none_store)
           eq_refl eq_refl eq_refl eq_refl eq_refl eq_refl eq_refl eq_refl eq_refl).
Defined.
